(** * The Uber trip cleaner [clean_uber_data] of notebooks/utils/functions.py

    A shallow embedding of the one function of the repository and the
    properties its specification states about it.

    The function works on a pandas DataFrame.  A frame is modelled as the
    list of its column labels and the ordered list of its rows; a row is a
    record of the columns the function reads or writes, together with its
    index label.  Numbers are IEEE-754 binary64 values (Rocq's primitive
    floats), so NaN is a value and every comparison with it is false.  The
    cells of [fare_amount] and [passenger_count] may also hold the missing
    marker [pd.NA] of a nullable column, on which a comparison is [<NA>];
    boolean masks are therefore three-valued, combined by Kleene's [|] and
    [~], and boolean indexing takes [<NA>] as false, as pandas does.

    The frame handed in by the caller is the state of a small
    state-and-exception monad: column assignment [df[c] = ...] updates it,
    column access [df[c]] raises [KeyError] when the label is absent.  The
    distance step of line 71 can raise [ValueError] in two ways, both
    modelled: [df.apply(f, axis=1)] on a frame without rows gives back a
    frame, which cannot be assigned to one column, and the library's
    [geodesic] refuses a point with a coordinate that is not finite or a
    latitude outside [-90, 90].

    Two library functions are parameters of the development: the string
    parser behind [pd.to_datetime] and the distance that
    [geopy.distance.geodesic(..).miles] returns for two points it
    accepts. *)

From Stdlib Require Import ZArith List Bool String Floats Permutation Lia.
Import ListNotations.

Set Warnings "-inexact-float".

Local Open Scope string_scope.
Local Open Scope list_scope.
Local Open Scope Z_scope.

(* ================================================================= *)
(** ** Cells, rows and frames *)

(** A cell of the [pickup_datetime] column: a raw string as read from the
    file, a parsed timestamp (nanoseconds since the epoch, datetime64[ns]),
    or the missing marker. *)
Inductive Datetime : Type :=
| Raw (s : string)
| Timestamp (ns : Z)
| NaT.

(** A cell of [fare_amount] or [passenger_count]: a number (NaN among
    them), or [pd.NA] when the column has a nullable dtype. *)
Inductive Cell : Type :=
| Value (x : float)
| NA.

Record Row : Type := mkRow {
  label : Z;                      (* index label of the row *)
  pickup_datetime : Datetime;
  pickup_longitude : float;
  pickup_latitude : float;
  dropoff_longitude : float;
  dropoff_latitude : float;
  fare_amount : Cell;
  passenger_count : Cell;         (* an integer compares as its float value *)
  pickup_hour : option Z;         (* None is NaN *)
  distance_miles : float
}.

Record DataFrame : Type := mkFrame {
  columns : list string;
  rows : list Row
}.

Definition has_column (c : string) (df : DataFrame) : bool :=
  existsb (String.eqb c) (columns df).

(** Field updates, one per column the function assigns or that [concat]
    may have to fill. *)
Definition set_pickup_datetime (v : Datetime) (r : Row) : Row :=
  mkRow (label r) v (pickup_longitude r) (pickup_latitude r)
        (dropoff_longitude r) (dropoff_latitude r) (fare_amount r)
        (passenger_count r) (pickup_hour r) (distance_miles r).

Definition set_pickup_hour (v : option Z) (r : Row) : Row :=
  mkRow (label r) (pickup_datetime r) (pickup_longitude r) (pickup_latitude r)
        (dropoff_longitude r) (dropoff_latitude r) (fare_amount r)
        (passenger_count r) v (distance_miles r).

Definition set_distance_miles (v : float) (r : Row) : Row :=
  mkRow (label r) (pickup_datetime r) (pickup_longitude r) (pickup_latitude r)
        (dropoff_longitude r) (dropoff_latitude r) (fare_amount r)
        (passenger_count r) (pickup_hour r) v.

(** A row with its distance blanked: what the caller's frame and the two
    results can be compared on. *)
Definition without_distance (r : Row) : Row :=
  set_distance_miles PrimFloat.nan r.

(** The columns of a row that the function only reads. *)
Definition passthrough (r : Row) : Z * (float * float * float * float) * (Cell * Cell) :=
  (label r,
   (pickup_longitude r, pickup_latitude r, dropoff_longitude r, dropoff_latitude r),
   (fare_amount r, passenger_count r)).

(* ================================================================= *)
(** ** Series operations *)

(** A boolean mask; [None] is [<NA>]. *)
Definition mask : Type := list (option bool).

(** [s < x], [s > x], [s <= x] and [s.isna()] on a float series. *)
Definition lt_scalar (s : list float) (x : float) : mask :=
  map (fun v => Some (PrimFloat.ltb v x)) s.

Definition gt_scalar (s : list float) (x : float) : mask :=
  map (fun v => Some (PrimFloat.ltb x v)) s.

Definition le_scalar (s : list float) (x : float) : mask :=
  map (fun v => Some (PrimFloat.leb v x)) s.

Definition isna (s : list float) : mask :=
  map (fun v => Some (PrimFloat.is_nan v)) s.

(** [s <= x] and [s > x] on a series that may hold [pd.NA]. *)
Definition cell_le (c : Cell) (x : float) : option bool :=
  match c with
  | Value v => Some (PrimFloat.leb v x)
  | NA => None
  end.

Definition cell_gt (c : Cell) (x : float) : option bool :=
  match c with
  | Value v => Some (PrimFloat.ltb x v)
  | NA => None
  end.

Definition le_cells (s : list Cell) (x : float) : mask :=
  map (fun c => cell_le c x) s.

Definition gt_cells (s : list Cell) (x : float) : mask :=
  map (fun c => cell_gt c x) s.

(** [s.isna()] on a datetime series. *)
Definition isnat (d : Datetime) : bool :=
  match d with
  | NaT => true
  | _ => false
  end.

Definition isna_datetime (s : list Datetime) : mask :=
  map (fun d => Some (isnat d)) s.

(** [a | b] and [~a] on masks over the same index: Kleene's connectives. *)
Definition or3 (a b : option bool) : option bool :=
  match a, b with
  | Some true, _ => Some true
  | _, Some true => Some true
  | Some false, Some false => Some false
  | _, _ => None
  end.

Definition not3 (a : option bool) : option bool :=
  match a with
  | Some x => Some (negb x)
  | None => None
  end.

Fixpoint series_or (a b : mask) : mask :=
  match a, b with
  | x :: a', y :: b' => or3 x y :: series_or a' b'
  | _, _ => []
  end.

Definition series_not (a : mask) : mask :=
  map not3 a.

(** A mask entry as boolean indexing reads it: [<NA>] selects nothing. *)
Definition is_true (m : option bool) : bool :=
  match m with
  | Some true => true
  | _ => false
  end.

(** [s.dt.hour]. *)
Definition nanos_per_hour : Z := 3600000000000.

Definition dt_hour (d : Datetime) : option Z :=
  match d with
  | Timestamp ns => Some ((ns / nanos_per_hour) mod 24)
  | _ => None
  end.

(** Boolean indexing [df[mask]]: the rows whose mask entry is true, in
    order.  The masks of the function are computed from the frame they
    index, so they have its length. *)
Fixpoint select {A : Type} (m : mask) (l : list A) : list A :=
  match m, l with
  | x :: m', y :: l' => if is_true x then y :: select m' l' else select m' l'
  | _, _ => []
  end.

Definition loc_mask (df : DataFrame) (m : mask) : DataFrame :=
  mkFrame (columns df) (select m (rows df)).

(** Column assignment on a frame the function owns: the label is appended
    when new, the values are written row by row. *)
Fixpoint assign {A : Type} (upd : A -> Row -> Row) (vals : list A) (l : list Row) : list Row :=
  match vals, l with
  | v :: vals', r :: l' => upd v r :: assign upd vals' l'
  | _, _ => []
  end.

Definition add_column (c : string) (cols : list string) : list string :=
  if existsb (String.eqb c) cols then cols else cols ++ [c].

Definition set_column {A : Type} (c : string) (upd : A -> Row -> Row)
           (vals : list A) (df : DataFrame) : DataFrame :=
  mkFrame (add_column c (columns df)) (assign upd vals (rows df)).

(** [pd.concat([a, b])]: the rows of [a] then those of [b] under the union
    of the columns; a frame that lacks [distance_miles] while the union has
    it gets NaN there.  (Both frames of the one call site carry every
    other column of the model.) *)
Definition reindex (cols : list string) (df : DataFrame) : list Row :=
  if existsb (String.eqb "distance_miles") cols && negb (has_column "distance_miles" df)
  then map (set_distance_miles PrimFloat.nan) (rows df)
  else rows df.

Definition concat (a b : DataFrame) : DataFrame :=
  let cols := columns a ++ filter (fun c => negb (has_column c a)) (columns b) in
  mkFrame cols (reindex cols a ++ reindex cols b).

(* ================================================================= *)
(** ** The caller's frame as state, exceptions *)

(** What a [ValueError] of the distance step is about. *)
Inductive cause : Type :=
| FrameForColumn       (* a frame with several columns assigned to one column *)
| PointNotFinite       (* a coordinate that is NaN or infinite *)
| LatitudeOutOfRange.  (* a latitude outside [-90, 90] *)

Inductive exn : Type :=
| KeyError (column : string)
| ValueError (why : cause).

Inductive outcome (A : Type) : Type :=
| Return (a : A)
| Raise (e : exn).

Arguments Return {A} a.
Arguments Raise {A} e.

Definition M (A : Type) : Type := DataFrame -> DataFrame * outcome A.

Definition ret {A : Type} (a : A) : M A :=
  fun df => (df, Return a).

Definition bind {A B : Type} (m : M A) (k : A -> M B) : M B :=
  fun df =>
    match m df with
    | (df', Return a) => k a df'
    | (df', Raise e) => (df', Raise e)
    end.

(** A step that does not touch the caller's frame. *)
Definition lift {A : Type} (o : outcome A) : M A :=
  fun df => (df, o).

Declare Scope frame_scope.
Delimit Scope frame_scope with frame.

Notation "x <- m ;; k" := (bind m (fun x => k))
  (at level 61, m at next level, right associativity) : frame_scope.
Notation "m ;; k" := (bind m (fun _ => k))
  (at level 61, right associativity) : frame_scope.

Local Open Scope frame_scope.

(** [df[c]] read through the projection of the column. *)
Definition getitem {A : Type} (c : string) (field : Row -> A) : M (list A) :=
  fun df =>
    if has_column c df then (df, Return (map field (rows df)))
    else (df, Raise (KeyError c)).

(** [df[c] = vals] on the caller's frame. *)
Definition setitem {A : Type} (c : string) (upd : A -> Row -> Row) (vals : list A) : M unit :=
  fun df => (set_column c upd vals df, Return tt).

(** [df[mask].copy()]: a fresh frame, the caller's one is left as it is. *)
Definition copy_where (m : mask) : M DataFrame :=
  fun df => (df, Return (loc_mask df m)).

(** The columns the function reads, in the order it first reads them. *)
Definition required_columns : list string :=
  [ "pickup_datetime"; "pickup_longitude"; "pickup_latitude";
    "dropoff_longitude"; "dropoff_latitude"; "fare_amount"; "passenger_count" ].

Definition has_required (df : DataFrame) : bool :=
  forallb (fun c => has_column c df) required_columns.

(* ================================================================= *)
(** ** The library's part of the distance step *)

(** Modelled from the library's documentation: what [geopy]'s [Point]
    refuses.  A coordinate that is not finite raises [ValueError], then a
    latitude outside [-90, 90] does; a longitude of any finite size is
    accepted (and normalised). *)
Definition point_check (p : float * float) : option cause :=
  if negb (PrimFloat.is_finite (fst p) && PrimFloat.is_finite (snd p))
  then Some PointNotFinite
  else if PrimFloat.ltb 90%float (PrimFloat.abs (fst p))
       then Some LatitudeOutOfRange
       else None.

(** What [df.apply(f, axis=1)] gives: a series with one value per row, or,
    on a frame without rows, a copy of the frame. *)
Inductive applied (A : Type) : Type :=
| AsSeries (vals : list A)
| AsFrame (df : DataFrame).

Arguments AsSeries {A} vals.
Arguments AsFrame {A} df.

(** [f] on each row in turn; the first exception ends the loop. *)
Fixpoint each_row {A : Type} (f : Row -> outcome A) (l : list Row) : outcome (list A) :=
  match l with
  | [] => Return []
  | r :: l' =>
      match f r with
      | Raise e => Raise e
      | Return v =>
          match each_row f l' with
          | Raise e => Raise e
          | Return vs => Return (v :: vs)
          end
      end
  end.

Definition apply_rows {A : Type} (f : Row -> outcome A) (df : DataFrame)
  : outcome (applied A) :=
  match rows df with
  | [] => Return (AsFrame df)
  | _ =>
      match each_row f (rows df) with
      | Return vals => Return (AsSeries vals)
      | Raise e => Raise e
      end
  end.

(** [df[c] = v] for what [apply] gave.  A frame cannot become one column:
    the frames of this function have the seven required columns and
    [pickup_hour], and pandas refuses to set several columns to one. *)
Definition set_applied {A : Type} (c : string) (upd : A -> Row -> Row)
           (v : applied A) (df : DataFrame) : outcome DataFrame :=
  match v with
  | AsSeries vals => Return (set_column c upd vals df)
  | AsFrame _ => Raise (ValueError FrameForColumn)
  end.

(* ================================================================= *)
(** ** The function *)

Section Cleaner.

(** The string parser of [pd.to_datetime]; [None] is a parse failure. *)
Variable parse_datetime : string -> option Z.

(** The miles that [geodesic((lat1, lon1), (lat2, lon2)).miles] returns
    for two points it accepts. *)
Variable geodesic_miles : float * float -> float * float -> float.

(** [pd.to_datetime(_, errors='coerce')], cell by cell. *)
Definition to_datetime (d : Datetime) : Datetime :=
  match d with
  | Raw s =>
      match parse_datetime s with
      | Some ns => Timestamp ns
      | None => NaT
      end
  | Timestamp ns => Timestamp ns
  | NaT => NaT
  end.

(** [geodesic(p, q).miles]: the two points are checked in turn. *)
Definition geodesic (p q : float * float) : outcome float :=
  match point_check p with
  | Some why => Raise (ValueError why)
  | None =>
      match point_check q with
      | Some why => Raise (ValueError why)
      | None => Return (geodesic_miles p q)
      end
  end.

(** The two points of a row, latitude first. *)
Definition pickup_point (row : Row) : float * float :=
  (pickup_latitude row, pickup_longitude row).

Definition dropoff_point (row : Row) : float * float :=
  (dropoff_latitude row, dropoff_longitude row).

(** The lambda of line 71. *)
Definition trip_distance (row : Row) : outcome float :=
  geodesic (pickup_point row) (dropoff_point row).

(** Lines 25 to 68: conversion of the timestamp, the six masks, and the
    first split.  Returns [(dropped, df_cleaned)] as they are after
    line 68. *)
Definition stage_one (LONG_MIN LONG_MAX LAT_MIN LAT_MAX : float)
  : M (DataFrame * DataFrame) :=
  raw <- getitem "pickup_datetime" pickup_datetime ;;
  setitem "pickup_datetime" set_pickup_datetime (map to_datetime raw) ;;
  stamps <- getitem "pickup_datetime" pickup_datetime ;;
  setitem "pickup_hour" set_pickup_hour (map dt_hour stamps) ;;

  stamps <- getitem "pickup_datetime" pickup_datetime ;;
  let condition_invalid_datetime := isna_datetime stamps in

  plon <- getitem "pickup_longitude" pickup_longitude ;;
  plon' <- getitem "pickup_longitude" pickup_longitude ;;
  plat <- getitem "pickup_latitude" pickup_latitude ;;
  plat' <- getitem "pickup_latitude" pickup_latitude ;;
  dlon <- getitem "dropoff_longitude" dropoff_longitude ;;
  dlon' <- getitem "dropoff_longitude" dropoff_longitude ;;
  dlat <- getitem "dropoff_latitude" dropoff_latitude ;;
  dlat' <- getitem "dropoff_latitude" dropoff_latitude ;;
  let condition_out_of_range :=
    series_or (series_or (series_or (series_or (series_or (series_or (series_or
      (lt_scalar plon LONG_MIN) (gt_scalar plon' LONG_MAX))
      (lt_scalar plat LAT_MIN)) (gt_scalar plat' LAT_MAX))
      (lt_scalar dlon LONG_MIN)) (gt_scalar dlon' LONG_MAX))
      (lt_scalar dlat LAT_MIN)) (gt_scalar dlat' LAT_MAX) in

  fare <- getitem "fare_amount" fare_amount ;;
  let condition_invalid_fare := le_cells fare 0%float in

  plon <- getitem "pickup_longitude" pickup_longitude ;;
  plat <- getitem "pickup_latitude" pickup_latitude ;;
  dlon <- getitem "dropoff_longitude" dropoff_longitude ;;
  dlat <- getitem "dropoff_latitude" dropoff_latitude ;;
  let condition_nan_coordinates :=
    series_or (series_or (series_or (isna plon) (isna plat)) (isna dlon)) (isna dlat) in

  count <- getitem "passenger_count" passenger_count ;;
  let condition_zero_passenger := le_cells count 0%float in
  count' <- getitem "passenger_count" passenger_count ;;
  let condition_high_passenger_count := gt_cells count' 10%float in

  let initial_condition_combined :=
    series_or (series_or (series_or (series_or (series_or
      condition_out_of_range
      condition_invalid_fare)
      condition_nan_coordinates)
      condition_zero_passenger)
      condition_invalid_datetime)
      condition_high_passenger_count in

  dropped <- copy_where initial_condition_combined ;;
  df_cleaned <- copy_where (series_not initial_condition_combined) ;;
  ret (dropped, df_cleaned).

(** Lines 70 to 85, on the two frames of the first split; they are
    copies, so the caller's frame is not touched any more. *)
Definition stage_two (dropped df_cleaned : DataFrame) : outcome (DataFrame * DataFrame) :=
  match apply_rows trip_distance df_cleaned with
  | Raise e => Raise e
  | Return distances =>
      match set_applied "distance_miles" set_distance_miles distances df_cleaned with
      | Raise e => Raise e
      | Return df_cleaned =>
          let condition_invalid_distance :=
            le_scalar (map distance_miles (rows df_cleaned)) 0%float in
          let dropped := concat dropped (loc_mask df_cleaned condition_invalid_distance) in
          let df_cleaned := loc_mask df_cleaned (series_not condition_invalid_distance) in
          Return (df_cleaned, dropped)
      end
  end.

Definition clean_uber_data (LONG_MIN LONG_MAX LAT_MIN LAT_MAX : float)
  : M (DataFrame * DataFrame) :=
  split1 <- stage_one LONG_MIN LONG_MAX LAT_MIN LAT_MAX ;;
  lift (stage_two (fst split1) (snd split1)).

End Cleaner.

(* ================================================================= *)
(** ** The function row by row *)

(** The four bounds of a call. *)
Record Bounds : Type := mkBounds {
  long_min : float;
  long_max : float;
  lat_min : float;
  lat_max : float
}.

(** The six masks of lines 29 to 52 and the one of line 77, on one row. *)
Definition invalid_datetime (r : Row) : bool :=
  isnat (pickup_datetime r).

Definition out_of_range (b : Bounds) (r : Row) : bool :=
  PrimFloat.ltb (pickup_longitude r) (long_min b)
  || PrimFloat.ltb (long_max b) (pickup_longitude r)
  || PrimFloat.ltb (pickup_latitude r) (lat_min b)
  || PrimFloat.ltb (lat_max b) (pickup_latitude r)
  || PrimFloat.ltb (dropoff_longitude r) (long_min b)
  || PrimFloat.ltb (long_max b) (dropoff_longitude r)
  || PrimFloat.ltb (dropoff_latitude r) (lat_min b)
  || PrimFloat.ltb (lat_max b) (dropoff_latitude r).

Definition invalid_fare (r : Row) : option bool :=
  cell_le (fare_amount r) 0%float.

Definition nan_coordinates (r : Row) : bool :=
  PrimFloat.is_nan (pickup_longitude r)
  || PrimFloat.is_nan (pickup_latitude r)
  || PrimFloat.is_nan (dropoff_longitude r)
  || PrimFloat.is_nan (dropoff_latitude r).

Definition zero_passenger (r : Row) : option bool :=
  cell_le (passenger_count r) 0%float.

Definition high_passenger_count (r : Row) : option bool :=
  cell_gt (passenger_count r) 10%float.

Definition initial_combined (b : Bounds) (r : Row) : option bool :=
  or3 (or3 (or3 (or3 (or3
    (Some (out_of_range b r))
    (invalid_fare r))
    (Some (nan_coordinates r)))
    (zero_passenger r))
    (Some (invalid_datetime r)))
    (high_passenger_count r).

Definition invalid_distance (r : Row) : bool :=
  PrimFloat.leb (distance_miles r) 0%float.

(** The two points of a row are both accepted by the library. *)
Definition accepted (r : Row) : bool :=
  match point_check (pickup_point r), point_check (dropoff_point r) with
  | None, None => true
  | _, _ => false
  end.

(** What the library raises on a row it does not accept. *)
Definition refusal (r : Row) : option cause :=
  match point_check (pickup_point r) with
  | Some why => Some why
  | None => point_check (dropoff_point r)
  end.

Section Rowwise.

Variable parse_datetime : string -> option Z.
Variable geodesic_miles : float * float -> float * float -> float.

(** A row after lines 25 and 26. *)
Definition converted (r : Row) : Row :=
  let r1 := set_pickup_datetime (to_datetime parse_datetime (pickup_datetime r)) r in
  set_pickup_hour (dt_hour (pickup_datetime r1)) r1.

(** A row after line 71, when the library accepts its points. *)
Definition measured (r : Row) : Row :=
  set_distance_miles (geodesic_miles (pickup_point r) (dropoff_point r)) r.

(** An input row as the cleaned set, or the second part of the dropped
    set, delivers it. *)
Definition delivered (r : Row) : Row :=
  measured (converted r).

(** An input row as the first part of the dropped set delivers it. *)
Definition rejected (df : DataFrame) (r : Row) : Row :=
  if has_column "distance_miles" df then converted r
  else set_distance_miles PrimFloat.nan (converted r).

(** The caller's frame after lines 25 and 26. *)
Definition converted_frame (df : DataFrame) : DataFrame :=
  mkFrame (add_column "pickup_hour" (columns df)) (map converted (rows df)).

(** The verdicts of the two stages on an input row: flagged by the
    combined mask, passed by its negation (a mask that is [<NA>] does
    neither), flagged by the distance mask. *)
Definition fails_first (b : Bounds) (r : Row) : bool :=
  is_true (initial_combined b (converted r)).

Definition survives (b : Bounds) (r : Row) : bool :=
  is_true (not3 (initial_combined b (converted r))).

Definition fails_second (r : Row) : bool :=
  invalid_distance (delivered r).

Definition kept (b : Bounds) (r : Row) : bool :=
  survives b r && negb (fails_second r).

(** The input rows that reach the distance step. *)
Definition survivors (b : Bounds) (df : DataFrame) : list Row :=
  filter (survives b) (rows df).

(** The rows of the two results, from the input rows. *)
Definition cleaned_rows (b : Bounds) (df : DataFrame) : list Row :=
  map delivered (filter (kept b) (rows df)).

Definition dropped_rows (b : Bounds) (df : DataFrame) : list Row :=
  map (rejected df) (filter (fails_first b) (rows df))
  ++ map delivered
       (filter (fun r => survives b r && fails_second r) (rows df)).

(** Every predicate but the fare one, every one but the two on the
    passenger count, and every one but the range one, passes on an input
    row. *)
Definition passes_except_fare (b : Bounds) (r : Row) : bool :=
  negb (out_of_range b r) && negb (nan_coordinates r)
  && is_true (not3 (zero_passenger r)) && negb (invalid_datetime (converted r))
  && is_true (not3 (high_passenger_count r)) && negb (fails_second r).

Definition passes_except_count (b : Bounds) (r : Row) : bool :=
  negb (out_of_range b r) && is_true (not3 (invalid_fare r))
  && negb (nan_coordinates r)
  && negb (invalid_datetime (converted r)) && negb (fails_second r).

Definition passes_except_range (r : Row) : bool :=
  is_true (not3 (invalid_fare r)) && negb (nan_coordinates r)
  && is_true (not3 (zero_passenger r))
  && negb (invalid_datetime (converted r))
  && is_true (not3 (high_passenger_count r))
  && negb (fails_second r).

(** The library returns a number for every row that reaches the distance
    step. *)
Definition measures_numbers (b : Bounds) (df : DataFrame) : bool :=
  forallb (fun r => negb (PrimFloat.is_nan (distance_miles (delivered r))))
          (survivors b df).

Definition clean (b : Bounds) : M (DataFrame * DataFrame) :=
  clean_uber_data parse_datetime geodesic_miles
                  (long_min b) (long_max b) (lat_min b) (lat_max b).

End Rowwise.

(* ================================================================= *)
(** ** The conditions of the specification *)

Definition is_number (x : float) : bool := negb (PrimFloat.is_nan x).

Definition is_positive (x : float) : bool := PrimFloat.ltb 0%float x.

Definition within (lo hi x : float) : bool :=
  PrimFloat.leb lo x && PrimFloat.leb x hi.

(** Not below the minimum and not above the maximum, where a bound that
    is NaN bounds nothing. *)
Definition bounded (lo hi x : float) : bool :=
  (PrimFloat.is_nan lo || PrimFloat.leb lo x)
  && (PrimFloat.is_nan hi || PrimFloat.leb x hi).

Definition coordinates_present (r : Row) : bool :=
  is_number (pickup_longitude r) && is_number (pickup_latitude r)
  && is_number (dropoff_longitude r) && is_number (dropoff_latitude r).

Definition coordinates_within (b : Bounds) (r : Row) : bool :=
  within (long_min b) (long_max b) (pickup_longitude r)
  && within (lat_min b) (lat_max b) (pickup_latitude r)
  && within (long_min b) (long_max b) (dropoff_longitude r)
  && within (lat_min b) (lat_max b) (dropoff_latitude r).

Definition coordinates_bounded (b : Bounds) (r : Row) : bool :=
  bounded (long_min b) (long_max b) (pickup_longitude r)
  && bounded (lat_min b) (lat_max b) (pickup_latitude r)
  && bounded (long_min b) (long_max b) (dropoff_longitude r)
  && bounded (lat_min b) (lat_max b) (dropoff_latitude r).

Definition valid_timestamp (r : Row) : bool :=
  match pickup_datetime r with
  | Timestamp _ => true
  | _ => false
  end.

Definition cell_positive (c : Cell) : bool :=
  match c with
  | Value x => is_positive x
  | NA => false
  end.

Definition cell_within (lo hi : float) (c : Cell) : bool :=
  match c with
  | Value x => within lo hi x
  | NA => false
  end.

(** A cell that holds a number equal to [v], and one that holds NaN. *)
Definition cell_equals (c : Cell) (v : float) : bool :=
  match c with
  | Value x => PrimFloat.eqb x v
  | NA => false
  end.

Definition cell_nan (c : Cell) : bool :=
  match c with
  | Value x => PrimFloat.is_nan x
  | NA => false
  end.

(** A fare the code lets through: a number above 0, or NaN. *)
Definition fare_let_through (c : Cell) : bool :=
  match c with
  | Value x => PrimFloat.is_nan x || is_positive x
  | NA => false
  end.

(** A passenger count the code lets through: NaN, or a number above 0
    and at most 10. *)
Definition count_let_through (c : Cell) : bool :=
  match c with
  | Value x => PrimFloat.is_nan x || (is_positive x && PrimFloat.leb x 10%float)
  | NA => false
  end.

(** The seven conditions on a cleaned row, as the specification words
    them. *)
Definition spec_valid (b : Bounds) (r : Row) : bool :=
  valid_timestamp r
  && coordinates_present r
  && coordinates_within b r
  && cell_positive (fare_amount r)
  && cell_within 1%float 10%float (passenger_count r)
  && is_positive (distance_miles r).

(** A value that the range mask of lines 32 to 37 does not flag. *)
Definition unflagged (lo hi x : float) : bool :=
  negb (PrimFloat.ltb x lo) && negb (PrimFloat.ltb hi x).

(** The conditions on a point, latitude first. *)
Definition point_present (p : float * float) : bool :=
  is_number (fst p) && is_number (snd p).

Definition point_unflagged (b : Bounds) (p : float * float) : bool :=
  unflagged (lat_min b) (lat_max b) (fst p)
  && unflagged (long_min b) (long_max b) (snd p).

Definition point_bounded (b : Bounds) (p : float * float) : bool :=
  bounded (lat_min b) (lat_max b) (fst p)
  && bounded (long_min b) (long_max b) (snd p).

(** The index labels of the rows passing a test, in the order of the frame. *)
Definition filter_labels (p : Row -> bool) (l : list Row) : list Z :=
  map label (filter p l).

(** The combined mask of a row is [<NA>]: neither it nor its negation
    selects the row. *)
Definition undecided (parse_datetime : string -> option Z) (b : Bounds) (r : Row) : bool :=
  match initial_combined b (converted parse_datetime r) with
  | None => true
  | Some _ => false
  end.

(** A box inside another: each bound of the outer one is at least as far
    out as that of the inner one. *)
Definition box_inside (inner outer : Bounds) : bool :=
  PrimFloat.leb (long_min outer) (long_min inner)
  && PrimFloat.leb (long_max inner) (long_max outer)
  && PrimFloat.leb (lat_min outer) (lat_min inner)
  && PrimFloat.leb (lat_max inner) (lat_max outer).

(** A box with a side turned over: a maximum below its minimum. *)
Definition box_inverted (b : Bounds) : bool :=
  PrimFloat.ltb (long_max b) (long_min b) || PrimFloat.ltb (lat_max b) (lat_min b).

(** A box without bounds: the four of them NaN. *)
Definition box_unbounded (b : Bounds) : bool :=
  PrimFloat.is_nan (long_min b) && PrimFloat.is_nan (long_max b)
  && PrimFloat.is_nan (lat_min b) && PrimFloat.is_nan (lat_max b).

(** The first required column that a frame lacks, in the order the
    function reads them. *)
Definition first_missing (df : DataFrame) : option string :=
  find (fun c => negb (has_column c df)) required_columns.

(** The two frames of a call that returned. *)
Definition returned (o : DataFrame * outcome (DataFrame * DataFrame))
  : DataFrame * DataFrame :=
  match snd o with
  | Return frames => frames
  | Raise _ => (mkFrame [] [], mkFrame [] [])
  end.

(* ================================================================= *)
(** ** The order of binary64 values, by keys *)

(** A number as a triple of integers whose lexicographic order is the
    order of the numbers: class (infinities, finite by sign, zero), then
    exponent, then mantissa.  NaN has no place in the order; its key is
    not used. *)
Definition float_key (x : spec_float) : Z * Z * Z :=
  match x with
  | S754_nan => (0, 0, 0)
  | S754_infinity true => (-2, 0, 0)
  | S754_infinity false => (2, 0, 0)
  | S754_zero _ => (0, 0, 0)
  | S754_finite true m e => (-1, - e, Zneg m)
  | S754_finite false m e => (1, e, Zpos m)
  end.

Definition key_compare (a b : Z * Z * Z) : comparison :=
  match fst (fst a) ?= fst (fst b) with
  | Eq =>
      match snd (fst a) ?= snd (fst b) with
      | Eq => snd a ?= snd b
      | c => c
      end
  | c => c
  end.

Definition key_lt (a b : Z * Z * Z) : Prop :=
  fst (fst a) < fst (fst b)
  \/ (fst (fst a) = fst (fst b)
      /\ (snd (fst a) < snd (fst b)
          \/ (snd (fst a) = snd (fst b) /\ snd a < snd b))).

Definition key_eq (a b : Z * Z * Z) : Prop :=
  fst (fst a) = fst (fst b) /\ snd (fst a) = snd (fst b) /\ snd a = snd b.

(** The key of a cell. *)
Definition cell_key (x : float) : Z * Z * Z := float_key (Prim2SF x).

(* ================================================================= *)
(** ** The geodesic distance of the specification *)

Module Wgs84.

Local Open Scope float_scope.

(** Sine, cosine and arc tangent, summed from their series. *)
Definition pi : float := 3.141592653589793.

(** The nearest integer, for arguments below 2^51 in size. *)
Definition nearest (x : float) : float :=
  (x + 6755399441055744) - 6755399441055744.

Fixpoint alternating (n : nat) (x2 term k acc : float) : float :=
  match n with
  | O => acc
  | S n' =>
      let term' := - (term * x2) / ((k + 1) * (k + 2)) in
      alternating n' x2 term' (k + 2) (acc + term')
  end.

Definition turn (x : float) : float :=
  x - (2 * pi) * nearest (x / (2 * pi)).

Definition sine (x : float) : float :=
  let y := turn x in alternating 24 (y * y) y 1 y.

Definition cosine (x : float) : float :=
  let y := turn x in alternating 24 (y * y) 1 0 1.

Fixpoint gregory (n : nat) (x2 power k acc : float) : float :=
  match n with
  | O => acc
  | S n' =>
      let power' := - (power * x2) in
      gregory n' x2 power' (k + 2) (acc + power' / (k + 2))
  end.

Definition halve (t : float) : float := t / (1 + sqrt (1 + t * t)).

(** The arc tangent of a value between -1 and 1. *)
Definition arctan_unit (t : float) : float :=
  let u := halve (halve t) in
  4 * gregory 24 (u * u) u 1 u.

(** The angle between 0 and pi of a point with [y >= 0]. *)
Definition arctan2_upper (y x : float) : float :=
  if (y =? 0) && (x =? 0) then 0
  else if y <=? abs x
       then (if 0 <? x then arctan_unit (y / x) else pi + arctan_unit (y / x))
       else pi / 2 - arctan_unit (x / y).

Definition wgs84_a : float := 6378137.
Definition wgs84_f : float := 1 / 298.257223563.
Definition wgs84_b : float := (1 - wgs84_f) * wgs84_a.
Definition metres_per_mile : float := 1609.344.

Definition radians (degrees : float) : float := degrees * pi / 180.

(** Sine and cosine of the reduced latitude. *)
Record reduced : Type := mkReduced { sin_u : float; cos_u : float }.

Definition reduce (latitude : float) : reduced :=
  let phi := radians latitude in
  let tan_u := (1 - wgs84_f) * (sine phi / cosine phi) in
  let c := 1 / sqrt (1 + tan_u * tan_u) in
  mkReduced (tan_u * c) c.

Record arc : Type := mkArc {
  sigma : float; sin_sigma : float; cos_sigma : float;
  cos_sq_alpha : float; cos_2sigma_m : float; next_lambda : float
}.

(** One step of the iteration on the longitude difference on the
    auxiliary sphere. *)
Definition arc_at (u1 u2 : reduced) (l lambda : float) : arc :=
  let sl := sine lambda in
  let cl := cosine lambda in
  let p := cos_u u2 * sl in
  let q := cos_u u1 * sin_u u2 - sin_u u1 * cos_u u2 * cl in
  let ss := sqrt (p * p + q * q) in
  let cs := sin_u u1 * sin_u u2 + cos_u u1 * cos_u u2 * cl in
  let sg := arctan2_upper ss cs in
  let sa := if ss =? 0 then 0 else cos_u u1 * cos_u u2 * sl / ss in
  let c2a := 1 - sa * sa in
  let c2m := if c2a =? 0 then 0 else cs - 2 * sin_u u1 * sin_u u2 / c2a in
  let c := wgs84_f / 16 * c2a * (4 + wgs84_f * (4 - 3 * c2a)) in
  let lambda' :=
    l + (1 - c) * wgs84_f * sa
        * (sg + c * ss * (c2m + c * cs * (2 * c2m * c2m - 1))) in
  mkArc sg ss cs c2a c2m lambda'.

Fixpoint settle (n : nat) (u1 u2 : reduced) (l lambda : float) : arc :=
  let a := arc_at u1 u2 l lambda in
  match n with
  | O => a
  | S n' =>
      if abs (next_lambda a - lambda) <? 0x1p-40 then a
      else settle n' u1 u2 l (next_lambda a)
  end.

(** Modelled from the spec: the geodesic (ellipsoidal) distance on the
    WGS-84 ellipsoid between two points given in degrees, latitude first,
    in metres.  The library is not part of the repository; the distance
    is computed here by Vincenty's inverse iteration on the ellipsoid,
    which agrees with the library's values to well under a metre away
    from antipodal points. *)
Definition wgs84_metres (p q : float * float) : float :=
  let u1 := reduce (fst p) in
  let u2 := reduce (fst q) in
  let l := radians (snd q - snd p) in
  let a := settle 50 u1 u2 l l in
  if sin_sigma a =? 0 then 0
  else
    let u2 := cos_sq_alpha a * (wgs84_a * wgs84_a - wgs84_b * wgs84_b)
              / (wgs84_b * wgs84_b) in
    let ka := 1 + u2 / 16384 * (4096 + u2 * (u2 * (320 - 175 * u2) - 768)) in
    let kb := u2 / 1024 * (256 + u2 * (u2 * (74 - 47 * u2) - 128)) in
    let m := cos_2sigma_m a in
    let delta :=
      kb * sin_sigma a
      * (m + kb / 4 * (cos_sigma a * (2 * m * m - 1)
                       - kb / 6 * m * (4 * sin_sigma a * sin_sigma a - 3)
                         * (4 * m * m - 3))) in
    wgs84_b * ka * (sigma a - delta).

(** Modelled from the spec: the geodesic distance in miles. *)
Definition wgs84_miles (p q : float * float) : float :=
  wgs84_metres p q / metres_per_mile.

(** The great-circle distance on a sphere of the mean radius of the
    earth, by the haversine formula, and the distance on a flat map, for
    comparison. *)
Definition haversine_miles (p q : float * float) : float :=
  let f1 := radians (fst p) in
  let f2 := radians (fst q) in
  let sf := sine ((f2 - f1) / 2) in
  let sl := sine (radians (snd q - snd p) / 2) in
  let h := sf * sf + cosine f1 * cosine f2 * sl * sl in
  2 * 6371008.8 * arctan2_upper (sqrt h) (sqrt (1 - h)) / metres_per_mile.

End Wgs84.

(* ================================================================= *)
(** ** Instances of the two library functions, for running examples *)

(** A parser for the one layout of the data set, [YYYY-MM-DD HH:MM:SS]
    with an optional [ UTC]; the library's parser accepts more. *)
Definition digit (a : Ascii.ascii) : option Z :=
  let n := Z.of_nat (Ascii.nat_of_ascii a) in
  if (48 <=? n) && (n <=? 57) then Some (n - 48) else None.

Fixpoint number (acc : Z) (l : list Ascii.ascii) : option Z :=
  match l with
  | [] => Some acc
  | a :: l' =>
      match digit a with
      | Some d => number (10 * acc + d) l'
      | None => None
      end
  end.

Definition field (s : string) (start len : nat) : option Z :=
  let l := list_ascii_of_string (substring start len s) in
  if Nat.eqb (List.length l) len then number 0 l else None.

(** Days from 1970-01-01 to a civil date of the proleptic Gregorian
    calendar. *)
Definition days_from_civil (y m d : Z) : Z :=
  let y' := if m <=? 2 then y - 1 else y in
  let era := y' / 400 in
  let yoe := y' - era * 400 in
  let mp := (m + 9) mod 12 in
  let doy := (153 * mp + 2) / 5 + d - 1 in
  let doe := yoe * 365 + yoe / 4 - yoe / 100 + doy in
  era * 146097 + doe - 719468.

Definition iso_parse (s : string) : option Z :=
  let sep := (substring 4 1 s ++ substring 7 1 s ++ substring 10 1 s
              ++ substring 13 1 s ++ substring 16 1 s)%string in
  let tail := substring 19 (String.length s) s in
  match field s 0 4, field s 5 2, field s 8 2, field s 11 2, field s 14 2, field s 17 2 with
  | Some y, Some mo, Some d, Some h, Some mi, Some se =>
      if String.eqb sep "-- ::" && (String.eqb tail "" || String.eqb tail " UTC")
         && (1 <=? mo) && (mo <=? 12) && (1 <=? d) && (d <=? 31)
         && (h <=? 23) && (mi <=? 59) && (se <=? 59)
      then Some ((((days_from_civil y mo d * 24 + h) * 60 + mi) * 60 + se) * 1000000000)
      else None
  | _, _, _, _, _, _ => None
  end.

(** A flat-earth stand-in for the geodesic distance, good near New York
    (69.0 miles to a degree of latitude, 52.3 to one of longitude). *)
Definition planar_miles (p q : float * float) : float :=
  let dlat := PrimFloat.mul 69.0%float (PrimFloat.sub (fst q) (fst p)) in
  let dlon := PrimFloat.mul 52.3%float (PrimFloat.sub (snd q) (snd p)) in
  PrimFloat.sqrt (PrimFloat.add (PrimFloat.mul dlat dlat) (PrimFloat.mul dlon dlon)).

Definition sample_clean : Bounds -> M (DataFrame * DataFrame) :=
  clean iso_parse planar_miles.

(** Modelled from the spec: the call with the geodesic distance of the
    specification for the library's. *)
Definition wgs84_clean : Bounds -> M (DataFrame * DataFrame) :=
  clean iso_parse Wgs84.wgs84_miles.

(** A distance that answers only when the four coordinates are numbers,
    and is 0 otherwise. *)
Definition screened_only (g : float * float -> float * float -> float)
           (p q : float * float) : float :=
  if point_present p && point_present q then g p q else 0%float.

(** Example data: the bounding box of New York and a few trips. *)
Definition nyc : Bounds :=
  mkBounds (-74.3)%float (-73.7)%float 40.5%float 40.9%float.

Definition input_columns : list string :=
  [ "key"; "fare_amount"; "pickup_datetime"; "pickup_longitude"; "pickup_latitude";
    "dropoff_longitude"; "dropoff_latitude"; "passenger_count" ].

Definition result_columns : list string :=
  input_columns ++ [ "pickup_hour"; "distance_miles" ].

Definition nyc_pickup : float * float := (40.7128%float, (-74.0060)%float).
Definition nyc_dropoff : float * float := (40.7306%float, (-73.9352)%float).

Definition trip_cells (i : Z) (when : string) (fare count : Cell) : Row :=
  mkRow i (Raw when) (-74.0060)%float 40.7128%float (-73.9352)%float 40.7306%float
        fare count None PrimFloat.nan.

Definition trip (i : Z) (when : string) (fare count : float) : Row :=
  trip_cells i when (Value fare) (Value count).

Definition good_trip : Row := trip 0 "2015-05-07 19:52:06 UTC" 7.5%float 1%float.
Definition undated_trip : Row := trip 1 "not-a-date" 7.5%float 1%float.
Definition unpriced_trip : Row := trip 2 "2015-05-07 19:52:06 UTC" PrimFloat.nan 1%float.
Definition half_trip : Row := trip 3 "2015-05-07 19:52:06 UTC" 7.5%float 0.5%float.
Definition uncounted_trip : Row := trip 4 "2015-05-07 19:52:06 UTC" 7.5%float PrimFloat.nan.
Definition cent_trip : Row := trip 5 "2015-05-07 19:52:06 UTC" 0.01%float 10%float.
Definition free_trip : Row := trip 6 "2015-05-07 19:52:06 UTC" 0%float 1%float.
Definition crowded_trip : Row := trip 7 "2015-05-07 19:52:06 UTC" 7.5%float 11%float.
Definition empty_trip : Row := trip 8 "2015-05-07 19:52:06 UTC" 7.5%float 0%float.

Definition still_trip : Row :=
  mkRow 9 (Raw "2015-05-07 19:52:06 UTC") (-74.0060)%float 40.7128%float
        (-74.0060)%float 40.7128%float (Value 7.5%float) (Value 1%float)
        None PrimFloat.nan.

Definition lost_trip : Row :=
  mkRow 10 (Raw "2015-05-07 19:52:06 UTC") PrimFloat.nan 40.7128%float
        (-73.9352)%float 40.7306%float (Value 7.5%float) (Value 1%float)
        None PrimFloat.nan.

Definition sample_frame : DataFrame :=
  mkFrame input_columns
          [ good_trip; undated_trip; unpriced_trip; half_trip; uncounted_trip;
            cent_trip; free_trip; crowded_trip; empty_trip; still_trip; lost_trip ].

Definition headless_frame : DataFrame :=
  mkFrame [ "key"; "pickup_datetime"; "pickup_longitude"; "pickup_latitude";
            "dropoff_longitude"; "dropoff_latitude"; "passenger_count" ]
          [ good_trip ].

(** More example data: the North-East of the United States, a box with
    its longitudes swapped, no box at all, a box taller than the globe; a
    trip far from New York, one on the corners of the New York box, one
    with a latitude that is no latitude, and one whose passenger count is
    [pd.NA]. *)
Definition north_east : Bounds :=
  mkBounds (-80)%float (-66)%float 37%float 48%float.

Definition swapped : Bounds :=
  mkBounds (-73.7)%float (-74.3)%float 40.5%float 40.9%float.

Definition nowhere : Bounds :=
  mkBounds PrimFloat.nan PrimFloat.nan PrimFloat.nan PrimFloat.nan.

Definition loose : Bounds :=
  mkBounds (-180)%float 180%float (-100)%float 100%float.

Definition far_trip : Row :=
  mkRow 11 (Raw "2015-05-07 19:52:06 UTC") 2.3522%float 48.8566%float
        2.2945%float 48.8584%float (Value 7.5%float) (Value 1%float)
        None PrimFloat.nan.

Definition corner_trip : Row :=
  mkRow 12 (Raw "2015-05-07 19:52:06 UTC") (-74.3)%float 40.5%float
        (-73.7)%float 40.9%float (Value 7.5%float) (Value 1%float)
        None PrimFloat.nan.

Definition polar_trip : Row :=
  mkRow 13 (Raw "2015-05-07 19:52:06 UTC") (-74.0060)%float 95%float
        (-73.9352)%float 40.7306%float (Value 7.5%float) (Value 1%float)
        None PrimFloat.nan.

Definition blank_trip : Row :=
  trip_cells 14 "2015-05-07 19:52:06 UTC" (Value 7.5%float) NA.

Definition edge_frame : DataFrame :=
  mkFrame input_columns [ corner_trip; far_trip ].

Definition undated_frame : DataFrame :=
  mkFrame [ "key"; "fare_amount"; "pickup_longitude"; "pickup_latitude";
            "dropoff_longitude"; "dropoff_latitude"; "passenger_count" ]
          [ good_trip ].

Definition no_rows_frame : DataFrame :=
  mkFrame input_columns [].

Definition hopeless_frame : DataFrame :=
  mkFrame input_columns [ undated_trip; free_trip ].

Definition standstill_frame : DataFrame :=
  mkFrame input_columns [ still_trip ].

Definition nullable_frame : DataFrame :=
  mkFrame input_columns [ good_trip; blank_trip ].

Definition polar_frame : DataFrame :=
  mkFrame input_columns [ good_trip; polar_trip ].

Definition pair_frame : DataFrame :=
  mkFrame input_columns [ good_trip ].

(** The frame that a call leaves and the two it returns. *)
Definition left_by (o : DataFrame * outcome (DataFrame * DataFrame)) : DataFrame :=
  fst o.
Definition cleaned_of (o : DataFrame * outcome (DataFrame * DataFrame)) : DataFrame :=
  fst (returned o).
Definition dropped_of (o : DataFrame * outcome (DataFrame * DataFrame)) : DataFrame :=
  snd (returned o).

(** The frames that the call on the sample frame leaves and returns. *)
Definition sample_after : DataFrame := fst (sample_clean nyc sample_frame).
Definition sample_cleaned : DataFrame := fst (returned (sample_clean nyc sample_frame)).
Definition sample_dropped : DataFrame := snd (returned (sample_clean nyc sample_frame)).

Definition edge_after : DataFrame := fst (sample_clean nyc edge_frame).
Definition edge_cleaned : DataFrame := fst (returned (sample_clean nyc edge_frame)).
Definition edge_dropped : DataFrame := snd (returned (sample_clean nyc edge_frame)).

(* ================================================================= *)
(** ** Comparisons of binary64 values *)

Module FloatFacts.

Lemma compare_flip (x y : spec_float) (c : comparison) :
  SFcompare x y = Some c -> SFcompare y x = Some (CompOpp c).
Proof.
  destruct x as [sx | sx | | sx mx ex], y as [sy | sy | | sy my ey];
    cbn; try discriminate;
    try (destruct sx); try (destruct sy);
    intros H; inversion H; try reflexivity;
    rewrite (Z.compare_antisym ex ey);
    destruct (ex ?= ey)%Z; cbn; try reflexivity;
    rewrite (Pos.compare_cont_antisym mx my Eq); reflexivity.
Qed.

Lemma compare_none (x y : spec_float) :
  SFcompare x y = None <-> x = S754_nan \/ y = S754_nan.
Proof.
  split.
  - destruct x as [sx | sx | | sx mx ex], y as [sy | sy | | sy my ey];
      cbn; try discriminate; auto.
  - intros [-> | ->]; [reflexivity | destruct x; reflexivity].
Qed.

Lemma compare_refl (x : spec_float) :
  x <> S754_nan -> SFcompare x x = Some Eq.
Proof.
  destruct x as [s | s | | s m e]; cbn; try congruence; intros _.
  - destruct s; reflexivity.
  - rewrite Z.compare_refl.
    change (Pos.compare_cont Eq m m) with (Pos.compare m m).
    rewrite Pos.compare_refl. destruct s; reflexivity.
Qed.

Lemma is_nan_spec (x : float) :
  PrimFloat.is_nan x = true <-> Prim2SF x = S754_nan.
Proof.
  unfold PrimFloat.is_nan. rewrite eqb_spec. unfold SFeqb. split.
  - intros H. destruct (Prim2SF x) eqn:E; try reflexivity;
      rewrite compare_refl in H by congruence; discriminate.
  - intros ->. reflexivity.
Qed.

Lemma is_nan_false (x : float) :
  PrimFloat.is_nan x = false <-> Prim2SF x <> S754_nan.
Proof.
  rewrite <- is_nan_spec. destruct (PrimFloat.is_nan x); split; congruence.
Qed.

(** A comparison that holds has two numbers as operands. *)
Lemma ltb_numbers (x y : float) :
  PrimFloat.ltb x y = true -> PrimFloat.is_nan x = false /\ PrimFloat.is_nan y = false.
Proof.
  rewrite ltb_spec, !is_nan_false. unfold SFltb.
  destruct (SFcompare (Prim2SF x) (Prim2SF y)) eqn:E; try discriminate.
  intros _. split; intros N; rewrite N in E;
    [ | destruct (Prim2SF x) ]; discriminate.
Qed.

Lemma leb_numbers (x y : float) :
  PrimFloat.leb x y = true -> PrimFloat.is_nan x = false /\ PrimFloat.is_nan y = false.
Proof.
  rewrite leb_spec, !is_nan_false. unfold SFleb.
  destruct (SFcompare (Prim2SF x) (Prim2SF y)) eqn:E; try discriminate.
  intros _. split; intros N; rewrite N in E;
    [ | destruct (Prim2SF x) ]; discriminate.
Qed.

(** Every comparison with NaN is false. *)
Lemma nan_ltb_l (x y : float) : PrimFloat.is_nan x = true -> PrimFloat.ltb x y = false.
Proof.
  intros N. destruct (PrimFloat.ltb x y) eqn:E; [ | reflexivity ].
  apply ltb_numbers in E. destruct E; congruence.
Qed.

Lemma nan_ltb_r (x y : float) : PrimFloat.is_nan y = true -> PrimFloat.ltb x y = false.
Proof.
  intros N. destruct (PrimFloat.ltb x y) eqn:E; [ | reflexivity ].
  apply ltb_numbers in E. destruct E; congruence.
Qed.

Lemma nan_leb_l (x y : float) : PrimFloat.is_nan x = true -> PrimFloat.leb x y = false.
Proof.
  intros N. destruct (PrimFloat.leb x y) eqn:E; [ | reflexivity ].
  apply leb_numbers in E. destruct E; congruence.
Qed.

(** On numbers the order is total. *)
Lemma ltb_false_leb (x y : float) :
  PrimFloat.ltb x y = false ->
  PrimFloat.is_nan x = false -> PrimFloat.is_nan y = false ->
  PrimFloat.leb y x = true.
Proof.
  rewrite ltb_spec, leb_spec, !is_nan_false. unfold SFltb, SFleb.
  intros L Nx Ny.
  destruct (SFcompare (Prim2SF x) (Prim2SF y)) as [c | ] eqn:E.
  - rewrite (compare_flip _ _ _ E). destruct c; try reflexivity; discriminate.
  - apply compare_none in E. tauto.
Qed.

Lemma leb_false_ltb (x y : float) :
  PrimFloat.leb x y = false ->
  PrimFloat.is_nan x = false -> PrimFloat.is_nan y = false ->
  PrimFloat.ltb y x = true.
Proof.
  rewrite ltb_spec, leb_spec, !is_nan_false. unfold SFltb, SFleb.
  intros L Nx Ny.
  destruct (SFcompare (Prim2SF x) (Prim2SF y)) as [c | ] eqn:E.
  - rewrite (compare_flip _ _ _ E). destruct c; try reflexivity; discriminate.
  - apply compare_none in E. tauto.
Qed.

(** [x <= 0] false leaves a missing or a positive value. *)
Lemma not_leb_zero (x : float) :
  PrimFloat.leb x 0%float = false ->
  PrimFloat.is_nan x = true \/ PrimFloat.ltb 0%float x = true.
Proof.
  intros L. destruct (PrimFloat.is_nan x) eqn:N; [ left; reflexivity | right ].
  apply leb_false_ltb; auto.
Qed.

(** IEEE equality [==]. *)
Lemma eqb_leb (x y : float) :
  PrimFloat.eqb x y = true -> PrimFloat.leb x y = true.
Proof.
  rewrite eqb_spec, leb_spec. unfold SFeqb, SFleb.
  destruct (SFcompare (Prim2SF x) (Prim2SF y)) as [[ | | ] | ]; congruence.
Qed.

Lemma compare_eq_finite (x : spec_float) (s : bool) (m : BinNums.positive) (e : Z) :
  SFcompare x (S754_finite s m e) = Some Eq -> x = S754_finite s m e.
Proof.
  destruct x as [sx | sx | | sx mx ex]; cbn; try destruct sx; try destruct s;
    try discriminate.
  all: destruct (Z.compare_spec ex e) as [-> | _ | _]; try discriminate.
  all: change (Pos.compare_cont Eq mx m) with (Pos.compare mx m).
  all: destruct (Pos.compare_spec mx m) as [-> | _ | _]; cbn; try discriminate.
  all: reflexivity.
Qed.

(** [x == y] for a finite non-zero [y] leaves one value for [x]. *)
Lemma eqb_finite (x y : float) (s : bool) (m : BinNums.positive) (e : Z) :
  Prim2SF y = S754_finite s m e -> PrimFloat.eqb x y = true -> x = y.
Proof.
  intros Hy. rewrite eqb_spec, Hy. unfold SFeqb.
  destruct (SFcompare (Prim2SF x) (S754_finite s m e)) as [[ | | ] | ] eqn:E;
    try discriminate.
  intros _. apply compare_eq_finite in E.
  apply Prim2SF_inj. congruence.
Qed.

End FloatFacts.

(* ================================================================= *)
(** ** The order of binary64 values *)

Module FloatOrder.

Lemma key_compare_lt (a b : Z * Z * Z) :
  key_compare a b = Lt <-> key_lt a b.
Proof.
  unfold key_compare, key_lt.
  destruct (Z.compare_spec (fst (fst a)) (fst (fst b)));
    destruct (Z.compare_spec (snd (fst a)) (snd (fst b)));
    destruct (Z.compare_spec (snd a) (snd b));
    split; intros; try discriminate; try reflexivity; lia.
Qed.

Lemma key_compare_eq (a b : Z * Z * Z) :
  key_compare a b = Eq <-> key_eq a b.
Proof.
  unfold key_compare, key_eq.
  destruct (Z.compare_spec (fst (fst a)) (fst (fst b)));
    destruct (Z.compare_spec (snd (fst a)) (snd (fst b)));
    destruct (Z.compare_spec (snd a) (snd b));
    split; intros; try discriminate; try reflexivity; lia.
Qed.

(** On numbers the comparison is the comparison of the keys. *)
Lemma compare_key (x y : spec_float) :
  x <> S754_nan -> y <> S754_nan ->
  SFcompare x y = Some (key_compare (float_key x) (float_key y)).
Proof.
  destruct x as [sx | sx | | sx mx ex], y as [sy | sy | | sy my ey];
    try congruence; intros _ _;
    try destruct sx; try destruct sy; try reflexivity;
    unfold SFcompare, key_compare, float_key; cbn [fst snd].
  rewrite Z.compare_opp, (Z.compare_antisym ex ey).
  change (- (1) ?= - (1)) with Eq. cbv iota.
  destruct (ex ?= ey); reflexivity.
Qed.

Lemma number_key (x : float) :
  PrimFloat.is_nan x = false <-> Prim2SF x <> S754_nan.
Proof. apply FloatFacts.is_nan_false. Qed.

Lemma ltb_key (x y : float) :
  PrimFloat.ltb x y = true
  <-> PrimFloat.is_nan x = false /\ PrimFloat.is_nan y = false
      /\ key_lt (cell_key x) (cell_key y).
Proof.
  split.
  - intros H. destruct (FloatFacts.ltb_numbers x y H) as [Nx Ny].
    split; [ exact Nx | ]. split; [ exact Ny | ].
    apply key_compare_lt. unfold cell_key.
    rewrite ltb_spec in H. unfold SFltb in H.
    rewrite compare_key in H by (apply number_key; assumption).
    destruct (key_compare _ _); congruence.
  - intros (Nx & Ny & K). apply key_compare_lt in K.
    rewrite ltb_spec. unfold SFltb.
    rewrite compare_key by (apply number_key; assumption).
    unfold cell_key in K. now rewrite K.
Qed.

Lemma leb_key (x y : float) :
  PrimFloat.leb x y = true
  <-> PrimFloat.is_nan x = false /\ PrimFloat.is_nan y = false
      /\ (key_lt (cell_key x) (cell_key y) \/ key_eq (cell_key x) (cell_key y)).
Proof.
  split.
  - intros H. destruct (FloatFacts.leb_numbers x y H) as [Nx Ny].
    split; [ exact Nx | ]. split; [ exact Ny | ].
    rewrite <- key_compare_lt, <- key_compare_eq. unfold cell_key.
    rewrite leb_spec in H. unfold SFleb in H.
    rewrite compare_key in H by (apply number_key; assumption).
    destruct (key_compare _ _); try discriminate; auto.
  - intros (Nx & Ny & K). rewrite <- key_compare_lt, <- key_compare_eq in K.
    rewrite leb_spec. unfold SFleb.
    rewrite compare_key by (apply number_key; assumption).
    unfold cell_key in K. destruct K as [-> | ->]; reflexivity.
Qed.

Ltac by_keys :=
  unfold key_lt, key_eq in *;
  repeat match goal with
         | |- context [cell_key ?x] => generalize dependent (cell_key x); intros
         end;
  lia.

Lemma ltb_leb_trans (x y z : float) :
  PrimFloat.ltb x y = true -> PrimFloat.leb y z = true -> PrimFloat.ltb x z = true.
Proof.
  rewrite !ltb_key, leb_key. intros (Nx & Ny & K1) (_ & Nz & K2).
  repeat split; try assumption. revert K1 K2. by_keys.
Qed.

Lemma leb_ltb_trans (x y z : float) :
  PrimFloat.leb x y = true -> PrimFloat.ltb y z = true -> PrimFloat.ltb x z = true.
Proof.
  rewrite !ltb_key, leb_key. intros (Nx & Ny & K1) (_ & Nz & K2).
  repeat split; try assumption. revert K1 K2. by_keys.
Qed.

Lemma leb_trans (x y z : float) :
  PrimFloat.leb x y = true -> PrimFloat.leb y z = true -> PrimFloat.leb x z = true.
Proof.
  rewrite !leb_key. intros (Nx & Ny & K1) (_ & Nz & K2).
  repeat split; try assumption. revert K1 K2. by_keys.
Qed.

Lemma ltb_not_leb (x y : float) :
  PrimFloat.ltb x y = true -> PrimFloat.leb y x = false.
Proof.
  intros H. destruct (PrimFloat.leb y x) eqn:E; [ | reflexivity ].
  exfalso. revert H E. rewrite ltb_key, leb_key.
  intros (_ & _ & K1) (_ & _ & K2). revert K1 K2. by_keys.
Qed.

Lemma leb_not_ltb (x y : float) :
  PrimFloat.leb x y = true -> PrimFloat.ltb y x = false.
Proof.
  intros H. destruct (PrimFloat.ltb y x) eqn:E; [ | reflexivity ].
  apply ltb_not_leb in E. congruence.
Qed.

End FloatOrder.

(* ================================================================= *)
(** ** The masks on one row *)

Lemma is_true_some (a : option bool) : is_true a = true <-> a = Some true.
Proof.
  destruct a as [ [ | ] | ]; cbn; split; intros; try discriminate; reflexivity.
Qed.

Lemma or3_some (a b : bool) : or3 (Some a) (Some b) = Some (a || b).
Proof. destruct a, b; reflexivity. Qed.

Lemma or3_false_iff (a b : option bool) :
  or3 a b = Some false <-> a = Some false /\ b = Some false.
Proof.
  destruct a as [ [ | ] | ], b as [ [ | ] | ]; cbn; split;
    try intros [? ?]; try discriminate; auto.
Qed.

Lemma or3_true_iff (a b : option bool) :
  or3 a b = Some true <-> a = Some true \/ b = Some true.
Proof.
  destruct a as [ [ | ] | ], b as [ [ | ] | ]; cbn; split;
    try intros [? | ?]; try discriminate; auto.
Qed.

Lemma is_true_not3 (a : option bool) : is_true (not3 a) = true <-> a = Some false.
Proof.
  destruct a as [ [ | ] | ]; cbn; split; intros; try discriminate; reflexivity.
Qed.

Lemma initial_combined_false (b : Bounds) (r : Row) :
  initial_combined b r = Some false
  <-> out_of_range b r = false /\ invalid_fare r = Some false
      /\ nan_coordinates r = false /\ zero_passenger r = Some false
      /\ invalid_datetime r = false /\ high_passenger_count r = Some false.
Proof.
  unfold initial_combined. rewrite !or3_false_iff. split.
  - intros [[[[[A B] C] D] E] F].
    injection A as A. injection C as C. injection E as E.
    split; [ exact A | ]. split; [ exact B | ]. split; [ exact C | ].
    split; [ exact D | ]. split; [ exact E | exact F ].
  - intros (A & B & C & D & E & F). rewrite A, C, E.
    split; [ | exact F ]. split; [ | reflexivity ]. split; [ | exact D ].
    split; [ | reflexivity ]. split; [ reflexivity | exact B ].
Qed.

Lemma initial_combined_true (b : Bounds) (r : Row) :
  initial_combined b r = Some true
  <-> out_of_range b r = true \/ invalid_fare r = Some true
      \/ nan_coordinates r = true \/ zero_passenger r = Some true
      \/ invalid_datetime r = true \/ high_passenger_count r = Some true.
Proof.
  unfold initial_combined. rewrite !or3_true_iff. split.
  - intros [[[[[A | B] | C] | D] | E] | F].
    + left. congruence.
    + right. left. exact B.
    + right. right. left. congruence.
    + right. right. right. left. exact D.
    + right. right. right. right. left. congruence.
    + right. right. right. right. right. exact F.
  - intros [A | [B | [C | [D | [E | F]]]]].
    + left. left. left. left. left. now rewrite A.
    + left. left. left. left. right. exact B.
    + left. left. left. right. now rewrite C.
    + left. left. right. exact D.
    + left. right. now rewrite E.
    + right. exact F.
Qed.

(** One mask that is true decides the combined one, whatever the others
    are. *)
Lemma flagged_by_range (b : Bounds) (r : Row) :
  out_of_range b r = true -> initial_combined b r = Some true.
Proof. intros H. apply initial_combined_true. auto. Qed.

Lemma flagged_by_fare (b : Bounds) (r : Row) :
  invalid_fare r = Some true -> initial_combined b r = Some true.
Proof. intros H. apply initial_combined_true. auto. Qed.

Lemma flagged_by_coordinates (b : Bounds) (r : Row) :
  nan_coordinates r = true -> initial_combined b r = Some true.
Proof. intros H. apply initial_combined_true. auto. Qed.

Lemma flagged_by_zero (b : Bounds) (r : Row) :
  zero_passenger r = Some true -> initial_combined b r = Some true.
Proof. intros H. apply initial_combined_true. auto. Qed.

Lemma flagged_by_high (b : Bounds) (r : Row) :
  high_passenger_count r = Some true -> initial_combined b r = Some true.
Proof. intros H. apply initial_combined_true. auto 7. Qed.

(* ================================================================= *)
(** ** Coordinates and bounds *)

(** A bound that is a number bounds the value; one that is NaN does not. *)
Lemma unflagged_bounded (lo hi x : float) :
  is_number x = true -> unflagged lo hi x = true -> bounded lo hi x = true.
Proof.
  unfold is_number, unflagged, bounded.
  rewrite !negb_true_iff, !andb_true_iff, !negb_true_iff.
  intros Nx [L H]. split.
  - destruct (PrimFloat.is_nan lo) eqn:N; [ reflexivity | ].
    cbn [orb]. apply FloatFacts.ltb_false_leb; assumption.
  - destruct (PrimFloat.is_nan hi) eqn:N; [ reflexivity | ].
    cbn [orb]. apply FloatFacts.ltb_false_leb; assumption.
Qed.

Lemma within_unflagged (lo hi x : float) :
  within lo hi x = true -> unflagged lo hi x = true.
Proof.
  unfold within, unflagged. rewrite !andb_true_iff, !negb_true_iff.
  intros [L1 L2]. split; apply FloatOrder.leb_not_ltb; assumption.
Qed.

Lemma survivor_present (r : Row) :
  nan_coordinates r = false -> coordinates_present r = true.
Proof.
  unfold nan_coordinates, coordinates_present, is_number.
  rewrite !orb_false_iff. intros [[[-> ->] ->] ->]. reflexivity.
Qed.

Lemma survivor_unflagged (b : Bounds) (r : Row) :
  out_of_range b r = false ->
  unflagged (long_min b) (long_max b) (pickup_longitude r) = true
  /\ unflagged (lat_min b) (lat_max b) (pickup_latitude r) = true
  /\ unflagged (long_min b) (long_max b) (dropoff_longitude r) = true
  /\ unflagged (lat_min b) (lat_max b) (dropoff_latitude r) = true.
Proof.
  unfold out_of_range, unflagged. rewrite !orb_false_iff.
  intros [[[[[[[-> ->] ->] ->] ->] ->] ->] ->]. repeat split.
Qed.

Lemma unflagged_range (b : Bounds) (r : Row) :
  unflagged (long_min b) (long_max b) (pickup_longitude r) = true ->
  unflagged (lat_min b) (lat_max b) (pickup_latitude r) = true ->
  unflagged (long_min b) (long_max b) (dropoff_longitude r) = true ->
  unflagged (lat_min b) (lat_max b) (dropoff_latitude r) = true ->
  out_of_range b r = false.
Proof.
  unfold unflagged, out_of_range.
  rewrite !andb_true_iff, !negb_true_iff.
  intros [-> ->] [-> ->] [-> ->] [-> ->]. reflexivity.
Qed.

Lemma survivor_bounded (b : Bounds) (r : Row) :
  out_of_range b r = false -> nan_coordinates r = false ->
  coordinates_bounded b r = true.
Proof.
  intros Ho Hn.
  apply survivor_present in Hn. apply survivor_unflagged in Ho.
  unfold coordinates_present in Hn. rewrite !andb_true_iff in Hn.
  destruct Hn as [[[N1 N2] N3] N4], Ho as (U1 & U2 & U3 & U4).
  unfold coordinates_bounded. rewrite !andb_true_iff.
  split; [ split; [ split | ] | ]; apply unflagged_bounded; assumption.
Qed.

Lemma inverted_side_flags (lo hi x : float) :
  PrimFloat.ltb hi lo = true -> PrimFloat.is_nan x = false ->
  unflagged lo hi x = false.
Proof.
  intros Hinv Nx. destruct (unflagged lo hi x) eqn:U; [ exfalso | reflexivity ].
  unfold unflagged in U. rewrite andb_true_iff, !negb_true_iff in U.
  destruct U as [U1 U2].
  destruct (FloatFacts.ltb_numbers hi lo Hinv) as [Nhi Nlo].
  apply FloatFacts.ltb_false_leb in U1; [ | assumption | assumption ].
  apply FloatFacts.ltb_false_leb in U2; [ | assumption | assumption ].
  pose proof (FloatOrder.leb_trans lo x hi U1 U2) as L.
  apply FloatOrder.ltb_not_leb in Hinv. congruence.
Qed.

Lemma inverted_box_flags (b : Bounds) (r : Row) :
  box_inverted b = true -> initial_combined b r = Some true.
Proof.
  intros Hb.
  destruct (nan_coordinates r) eqn:N; [ now apply flagged_by_coordinates | ].
  destruct (out_of_range b r) eqn:O; [ now apply flagged_by_range | exfalso ].
  apply survivor_unflagged in O. destruct O as (U1 & U2 & _ & _).
  unfold nan_coordinates in N. rewrite !orb_false_iff in N.
  destruct N as [[[N1 N2] _] _].
  unfold box_inverted in Hb. apply orb_true_iff in Hb. destruct Hb as [Hb | Hb].
  - rewrite (inverted_side_flags _ _ _ Hb N1) in U1. discriminate.
  - rewrite (inverted_side_flags _ _ _ Hb N2) in U2. discriminate.
Qed.

Lemma unflagged_wider (lo hi lo' hi' x : float) :
  PrimFloat.leb lo' lo = true -> PrimFloat.leb hi hi' = true ->
  unflagged lo hi x = true -> unflagged lo' hi' x = true.
Proof.
  unfold unflagged. rewrite !andb_true_iff, !negb_true_iff.
  intros Hlo Hhi [U1 U2]. split.
  - destruct (PrimFloat.ltb x lo') eqn:E; [ | reflexivity ].
    rewrite (FloatOrder.ltb_leb_trans x lo' lo E Hlo) in U1. discriminate.
  - destruct (PrimFloat.ltb hi' x) eqn:E; [ | reflexivity ].
    rewrite (FloatOrder.leb_ltb_trans hi hi' x Hhi E) in U2. discriminate.
Qed.

Lemma range_wider (b b' : Bounds) (r : Row) :
  box_inside b b' = true -> out_of_range b r = false -> out_of_range b' r = false.
Proof.
  unfold box_inside. rewrite !andb_true_iff.
  intros [[[L1 L2] L3] L4] Ho.
  apply survivor_unflagged in Ho. destruct Ho as (U1 & U2 & U3 & U4).
  apply unflagged_range; eapply unflagged_wider; eassumption.
Qed.

Lemma unbounded_range (b : Bounds) (r : Row) :
  box_unbounded b = true -> out_of_range b r = false.
Proof.
  unfold box_unbounded. rewrite !andb_true_iff.
  intros [[[B1 B2] B3] B4]. unfold out_of_range.
  rewrite !(FloatFacts.nan_ltb_r _ _ B1), !(FloatFacts.nan_ltb_l _ _ B2),
          !(FloatFacts.nan_ltb_r _ _ B3), !(FloatFacts.nan_ltb_l _ _ B4).
  reflexivity.
Qed.

(* ================================================================= *)
(** ** Fare, passenger count and hour *)

Lemma passenger_count_allowed (x : float) :
  PrimFloat.leb x 0%float = false -> PrimFloat.ltb 10%float x = false ->
  PrimFloat.is_nan x = true
  \/ (is_positive x = true /\ PrimFloat.leb x 10%float = true).
Proof.
  intros Hz Hh. destruct (PrimFloat.is_nan x) eqn:N; [ now left | right ].
  split.
  - apply FloatFacts.leb_false_ltb; auto.
  - apply FloatFacts.ltb_false_leb; auto.
Qed.

Lemma fare_unflagged (c : Cell) :
  cell_le c 0%float = Some false -> fare_let_through c = true.
Proof.
  destruct c as [ x | ]; cbn [cell_le fare_let_through]; [ | discriminate ].
  intros H. injection H as H.
  destruct (FloatFacts.not_leb_zero x H) as [-> | P]; [ reflexivity | ].
  unfold is_positive. rewrite P. apply orb_true_r.
Qed.

Lemma count_unflagged (c : Cell) :
  cell_le c 0%float = Some false -> cell_gt c 10%float = Some false ->
  count_let_through c = true.
Proof.
  destruct c as [ x | ]; cbn [cell_le cell_gt count_let_through]; [ | discriminate ].
  intros Hz Hh. injection Hz as Hz. injection Hh as Hh.
  destruct (passenger_count_allowed x Hz Hh) as [-> | [-> ->]]; [ reflexivity | ].
  apply orb_true_r.
Qed.

Lemma nan_fare_unflagged (c : Cell) :
  cell_nan c = true -> cell_le c 0%float = Some false /\ cell_gt c 10%float = Some false.
Proof.
  destruct c as [ x | ]; cbn [cell_nan cell_le cell_gt]; [ | discriminate ].
  intros N. now rewrite (FloatFacts.nan_leb_l _ _ N), (FloatFacts.nan_ltb_r _ _ N).
Qed.

Lemma hour_in_day (ns : Z) : 0 <= (ns / nanos_per_hour) mod 24 < 24.
Proof. apply Z.mod_pos_bound. unfold nanos_per_hour. lia. Qed.

(* ================================================================= *)
(** ** Index labels *)

Lemma count_absent (p : Row -> bool) (l : list Row) (i : Z) :
  ~ In i (map label l) -> count_occ Z.eq_dec (filter_labels p l) i = 0%nat.
Proof.
  intros H. apply count_occ_not_In. intros Hin. apply H.
  unfold filter_labels in Hin. apply in_map_iff in Hin.
  destruct Hin as (x & <- & Hx). apply filter_In in Hx.
  apply in_map, Hx.
Qed.

(** With distinct labels, a row of the frame is found once among the rows
    that pass a test when it passes it, and not at all when it does not. *)
Lemma count_filter_labels (p : Row -> bool) (l : list Row) (r : Row) :
  NoDup (map label l) -> In r l ->
  count_occ Z.eq_dec (filter_labels p l) (label r) = if p r then 1%nat else 0%nat.
Proof.
  induction l as [ | x l IH ]; cbn [map In]; intros ND Hr; [ destruct Hr | ].
  inversion ND as [ | ? ? Hx ND' ]; subst.
  destruct Hr as [-> | Hr].
  - unfold filter_labels. cbn [filter]. destruct (p r).
    + cbn [map]. rewrite count_occ_cons_eq by reflexivity.
      f_equal. now apply count_absent.
    + now apply count_absent.
  - assert (Hne : label x <> label r).
    { intros E. apply Hx. rewrite E. now apply in_map. }
    unfold filter_labels. cbn [filter]. destruct (p x).
    + cbn [map]. rewrite count_occ_cons_neq by exact Hne. now apply IH.
    + now apply IH.
Qed.

(* ================================================================= *)
(** ** Series and frames: the vectorised operations row by row *)

Section SeriesFacts.

Context {A B : Type}.

Lemma assign_map (upd : A -> Row -> Row) (f : Row -> A) (l : list Row) :
  assign upd (map f l) l = map (fun r => upd (f r) r) l.
Proof.
  induction l as [ | r l IH ]; cbn; [ reflexivity | now rewrite IH ].
Qed.

Lemma series_or_map (p q : B -> option bool) (l : list B) :
  series_or (map p l) (map q l) = map (fun r => or3 (p r) (q r)) l.
Proof.
  induction l as [ | r l IH ]; cbn; [ reflexivity | now rewrite IH ].
Qed.

Lemma series_not_map (p : B -> option bool) (l : list B) :
  series_not (map p l) = map (fun r => not3 (p r)) l.
Proof.
  unfold series_not. apply map_map.
Qed.

Lemma select_map (p : B -> option bool) (l : list B) :
  select (map p l) l = filter (fun r => is_true (p r)) l.
Proof.
  induction l as [ | r l IH ]; cbn; [ reflexivity | ].
  rewrite IH. reflexivity.
Qed.

Lemma filter_map_swap (f : A -> B) (p : B -> bool) (l : list A) :
  filter p (map f l) = map f (filter (fun x => p (f x)) l).
Proof.
  induction l as [ | x l IH ]; cbn; [ reflexivity | ].
  rewrite IH. destruct (p (f x)); reflexivity.
Qed.

Lemma filter_twice (p q : B -> bool) (l : list B) :
  filter p (filter q l) = filter (fun x => q x && p x) l.
Proof.
  induction l as [ | x l IH ]; cbn; [ reflexivity | ].
  destruct (q x); cbn; rewrite IH; reflexivity.
Qed.

(** Two tests that exclude each other split the rows passing either. *)
Lemma filter_three_ways (p q u : B -> bool) (l : list B) :
  (forall x, p x = true -> q x = false) ->
  Permutation
    (filter (fun x => q x && negb (u x)) l
     ++ filter p l
     ++ filter (fun x => q x && u x) l)
    (filter (fun x => p x || q x) l).
Proof.
  intros Hpq. induction l as [ | x l IH ]; cbn; [ constructor | ].
  destruct (p x) eqn:P.
  - rewrite (Hpq x P). cbn.
    apply Permutation_sym, Permutation_cons_app, Permutation_sym, IH.
  - destruct (q x), (u x); cbn.
    + rewrite app_assoc.
      apply Permutation_sym, Permutation_cons_app, Permutation_sym.
      rewrite <- app_assoc. exact IH.
    + now constructor.
    + exact IH.
    + exact IH.
Qed.

Lemma filter_all (p : B -> bool) (l : list B) :
  (forall x, In x l -> p x = true) -> filter p l = l.
Proof.
  induction l as [ | x l IH ]; cbn; intros H; [ reflexivity | ].
  rewrite (H x) by now left. f_equal. apply IH. intros y Hy. apply H. now right.
Qed.

Lemma filter_none (p : B -> bool) (l : list B) :
  (forall x, In x l -> p x = false) -> filter p l = [].
Proof.
  induction l as [ | x l IH ]; cbn; intros H; [ reflexivity | ].
  rewrite (H x) by now left. apply IH. intros y Hy. apply H. now right.
Qed.

Lemma map_fixed (f : B -> B) (l : list B) :
  (forall x, In x l -> f x = x) -> map f l = l.
Proof.
  induction l as [ | x l IH ]; cbn; intros H; [ reflexivity | ].
  rewrite (H x) by now left. f_equal. apply IH. intros y Hy. apply H. now right.
Qed.

Lemma filter_shorter (p q : B -> bool) (l : list B) :
  (forall x, p x = true -> q x = true) ->
  (List.length (filter p l) <= List.length (filter q l))%nat.
Proof.
  intros H. induction l as [ | x l IH ]; cbn; [ lia | ].
  destruct (p x) eqn:P.
  - rewrite (H x P). cbn. lia.
  - destruct (q x); cbn; lia.
Qed.

Lemma filter_count (p : B -> bool) (l : list B) :
  (List.length (filter p l) + List.length (filter (fun x => negb (p x)) l))%nat
  = List.length l.
Proof.
  induction l as [ | x l IH ]; cbn; [ reflexivity | ].
  destruct (p x); cbn; lia.
Qed.

End SeriesFacts.

Lemma has_column_added (c c' : string) (cols : list string) :
  existsb (String.eqb c) (add_column c' cols)
  = existsb (String.eqb c) cols || String.eqb c c'.
Proof.
  unfold add_column. destruct (existsb (String.eqb c') cols) eqn:E.
  - destruct (String.eqb_spec c c') as [-> | _].
    + rewrite E. reflexivity.
    + now rewrite orb_false_r.
  - rewrite existsb_app. cbn. now rewrite orb_false_r.
Qed.

Lemma filter_known_columns (cols cols' : list string) :
  incl cols' cols ->
  filter (fun c => negb (existsb (String.eqb c) cols)) cols' = [].
Proof.
  induction cols' as [ | c cols' IH ]; cbn; intros H; [ reflexivity | ].
  assert (E : existsb (String.eqb c) cols = true).
  { apply existsb_exists. exists c. split; [ apply H; now left | apply String.eqb_refl ]. }
  rewrite E. cbn. apply IH. intros x Hx. apply H. now right.
Qed.

(** The union of columns that [concat] builds at its one call site. *)
Lemma union_add_column (c : string) (cols : list string) :
  cols ++ filter (fun x => negb (existsb (String.eqb x) cols)) (add_column c cols)
  = add_column c cols.
Proof.
  unfold add_column. destruct (existsb (String.eqb c) cols) eqn:E.
  - rewrite filter_known_columns by apply incl_refl. apply app_nil_r.
  - rewrite filter_app, filter_known_columns by apply incl_refl. cbn.
    rewrite E. reflexivity.
Qed.

Lemma add_column_present (c : string) (cols : list string) :
  existsb (String.eqb c) cols = true -> add_column c cols = cols.
Proof.
  unfold add_column. now intros ->.
Qed.

Lemma has_column_set_column {A : Type} c c' (upd : A -> Row -> Row) vals df :
  has_column c (set_column c' upd vals df) = has_column c df || String.eqb c c'.
Proof.
  apply has_column_added.
Qed.

Lemma has_required_columns (df : DataFrame) :
  has_required df = true ->
  Forall (fun c => has_column c df = true) required_columns.
Proof.
  unfold has_required. rewrite forallb_forall. intros H.
  apply Forall_forall. exact H.
Qed.

Lemma has_required_more (c : string) (cols : list string) (l l' : list Row) :
  has_required (mkFrame cols l) = true ->
  has_required (mkFrame (add_column c cols) l') = true.
Proof.
  unfold has_required. rewrite !forallb_forall. intros H x Hx.
  specialize (H x Hx). unfold has_column in *. cbn [columns] in *.
  rewrite has_column_added, H. reflexivity.
Qed.

Lemma first_missing_none (df : DataFrame) :
  first_missing df = None <-> has_required df = true.
Proof.
  unfold first_missing, has_required. split.
  - intros H. apply forallb_forall. intros c Hc.
    apply (find_none _ _ H) in Hc. now apply negb_false_iff.
  - intros H. rewrite forallb_forall in H.
    destruct (find _ required_columns) as [c | ] eqn:E; [ | reflexivity ].
    apply find_some in E. destruct E as [Hc E].
    rewrite (H c Hc) in E. discriminate.
Qed.

(* ================================================================= *)
(** ** The library's checks, row by row *)

(** The first refusal of the library over the rows of a frame. *)
Lemma refusal_accepted (r : Row) : refusal r = None <-> accepted r = true.
Proof.
  unfold refusal, accepted.
  destruct (point_check (pickup_point r)), (point_check (dropoff_point r));
    split; intros; congruence.
Qed.

Lemma trip_distance_outcome (g : float * float -> float * float -> float) (r : Row) :
  trip_distance g r
  = match refusal r with
    | Some why => Raise (ValueError why)
    | None => Return (g (pickup_point r) (dropoff_point r))
    end.
Proof.
  unfold trip_distance, geodesic, refusal.
  destruct (point_check (pickup_point r)); [ reflexivity | ].
  destruct (point_check (dropoff_point r)); reflexivity.
Qed.

Lemma each_row_accepted (g : float * float -> float * float -> float) (l : list Row) :
  forallb accepted l = true ->
  each_row (trip_distance g) l
  = Return (map (fun r => g (pickup_point r) (dropoff_point r)) l).
Proof.
  induction l as [ | r l IH ]; cbn [forallb each_row map]; [ reflexivity | ].
  rewrite andb_true_iff. intros [Hr Hl].
  rewrite trip_distance_outcome.
  apply refusal_accepted in Hr. rewrite Hr, (IH Hl). reflexivity.
Qed.

Lemma each_row_refused (g : float * float -> float * float -> float) (l : list Row) :
  forallb accepted l = false ->
  exists r why,
    In r l /\ refusal r = Some why
    /\ each_row (trip_distance g) l = Raise (ValueError why).
Proof.
  induction l as [ | r l IH ]; cbn [forallb each_row]; [ discriminate | ].
  rewrite trip_distance_outcome.
  destruct (refusal r) as [ why | ] eqn:E.
  - intros _. exists r, why. repeat split; [ now left | exact E ].
  - apply refusal_accepted in E. rewrite E. cbn [andb]. intros Hl.
    destruct (IH Hl) as (r' & why & Hin & Hr & Heach).
    exists r', why. rewrite Heach. repeat split; [ now right | exact Hr ].
Qed.

Lemma each_row_ext {A : Type} (f g : Row -> outcome A) (l : list Row) :
  (forall r, In r l -> f r = g r) -> each_row f l = each_row g l.
Proof.
  induction l as [ | r l IH ]; cbn [each_row]; intros H; [ reflexivity | ].
  rewrite (H r) by now left.
  rewrite IH by (intros x Hx; apply H; now right). reflexivity.
Qed.

(* ================================================================= *)
(** ** Running the function *)

Section Run.

Variable parse_datetime : string -> option Z.
Variable geodesic_miles : float * float -> float * float -> float.

Local Abbreviation converted := (converted parse_datetime).
Local Abbreviation converted_frame := (converted_frame parse_datetime).
Local Abbreviation delivered := (delivered parse_datetime geodesic_miles).
Local Abbreviation measured := (measured geodesic_miles).
Local Abbreviation rejected := (rejected parse_datetime).
Local Abbreviation fails_first := (fails_first parse_datetime).
Local Abbreviation survives := (survives parse_datetime).
Local Abbreviation survivors := (survivors parse_datetime).
Local Abbreviation fails_second := (fails_second parse_datetime geodesic_miles).
Local Abbreviation kept := (kept parse_datetime geodesic_miles).
Local Abbreviation clean := (clean parse_datetime geodesic_miles).
Local Abbreviation cleaned_rows := (cleaned_rows parse_datetime geodesic_miles).
Local Abbreviation dropped_rows := (dropped_rows parse_datetime geodesic_miles).
Local Abbreviation stage_one := (stage_one parse_datetime).
Local Abbreviation stage_two := (stage_two geodesic_miles).

Lemma bind_getitem {X Y : Type} (c : string) (f : Row -> X) (k : list X -> M Y) df :
  has_column c df = true ->
  bind (getitem c f) k df = k (map f (rows df)) df.
Proof.
  intros H. unfold bind, getitem. now rewrite H.
Qed.

Lemma bind_getitem_missing {X Y : Type} (c : string) (f : Row -> X) (k : list X -> M Y) df :
  has_column c df = false ->
  bind (getitem c f) k df = (df, Raise (KeyError c)).
Proof.
  intros H. unfold bind, getitem. now rewrite H.
Qed.

Lemma bind_setitem {X Y : Type} (c : string) (upd : X -> Row -> Row) vals (k : unit -> M Y) df :
  bind (setitem c upd vals) k df = k tt (set_column c upd vals df).
Proof. reflexivity. Qed.

Lemma bind_copy_where {Y : Type} (m : mask) (k : DataFrame -> M Y) df :
  bind (copy_where m) k df = k (loc_mask df m) df.
Proof. reflexivity. Qed.

(** The caller's frame after the two assignments of lines 25 and 26. *)
Lemma conversion_frame (df : DataFrame) :
  has_column "pickup_datetime" df = true ->
  set_column "pickup_hour" set_pickup_hour
    (map dt_hour (map pickup_datetime (rows
       (set_column "pickup_datetime" set_pickup_datetime
          (map (to_datetime parse_datetime) (map pickup_datetime (rows df))) df))))
    (set_column "pickup_datetime" set_pickup_datetime
       (map (to_datetime parse_datetime) (map pickup_datetime (rows df))) df)
  = converted_frame df.
Proof.
  intros H. unfold set_column, converted_frame. cbn [columns rows].
  rewrite (add_column_present "pickup_datetime") by exact H.
  f_equal.
  rewrite !map_map, assign_map, assign_map, map_map. reflexivity.
Qed.

Lemma has_column_converted (c : string) (df : DataFrame) :
  has_column c (converted_frame df) = has_column c df || String.eqb c "pickup_hour".
Proof.
  apply has_column_added.
Qed.

Ltac read_column :=
  rewrite bind_getitem
    by (rewrite ?has_column_set_column, ?has_column_converted;
        match goal with H : has_column _ _ = true |- _ => rewrite H; reflexivity end);
  cbv beta zeta.

Ltac read_absent :=
  rewrite bind_getitem_missing
    by (rewrite ?has_column_converted;
        match goal with H : has_column _ _ = false |- _ => rewrite H; reflexivity end);
  reflexivity.

Ltac next_column c :=
  destruct (has_column c _) eqn:?; cbn [negb];
  [ | intros E; injection E as <-; cbn [String.eqb Ascii.eqb Bool.eqb]; read_absent ].

(** Lines 25 to 68 on a frame with the seven columns: the caller's frame
    is converted in place, and its rows are selected by the combined mask
    and by its negation. *)
Lemma stage_one_run (b : Bounds) (df : DataFrame) :
  has_required df = true ->
  stage_one (long_min b) (long_max b) (lat_min b) (lat_max b) df
  = (converted_frame df,
     Return (mkFrame (columns (converted_frame df))
                     (filter (fun r => is_true (initial_combined b r))
                             (rows (converted_frame df))),
             mkFrame (columns (converted_frame df))
                     (filter (fun r => is_true (not3 (initial_combined b r)))
                             (rows (converted_frame df))))).
Proof.
  intros H. apply has_required_columns in H. unfold required_columns in H.
  repeat match goal with
         | H : Forall _ (_ :: _) |- _ => inversion H; clear H; subst
         end.
  cbv beta in *.
  unfold stage_one.
  read_column. rewrite bind_setitem.
  read_column. rewrite bind_setitem.
  rewrite conversion_frame by assumption.
  repeat read_column.
  rewrite !bind_copy_where. unfold ret, loc_mask.
  set (cf := converted_frame df).
  unfold lt_scalar, gt_scalar, le_cells, gt_cells, isna, isna_datetime.
  rewrite !map_map.
  rewrite !series_or_map, series_not_map, !select_map.
  do 4 f_equal; apply filter_ext; intros r;
    unfold initial_combined, out_of_range, nan_coordinates, invalid_fare,
           zero_passenger, high_passenger_count, invalid_datetime;
    rewrite !or3_some; reflexivity.
Qed.

(** Lines 25 to 52 on a frame that lacks a required column. *)
Lemma stage_one_fails (b : Bounds) (df : DataFrame) (c : string) :
  first_missing df = Some c ->
  stage_one (long_min b) (long_max b) (lat_min b) (lat_max b) df
  = (if String.eqb c "pickup_datetime" then df else converted_frame df,
     Raise (KeyError c)).
Proof.
  unfold first_missing, required_columns, stage_one. cbn [find].
  destruct (has_column "pickup_datetime" df) eqn:H1; cbn [negb];
    [ | intros E; injection E as <-; rewrite String.eqb_refl; read_absent ].
  read_column. rewrite bind_setitem.
  read_column. rewrite bind_setitem.
  rewrite conversion_frame by assumption.
  read_column.
  next_column "pickup_longitude". do 2 read_column.
  next_column "pickup_latitude". do 2 read_column.
  next_column "dropoff_longitude". do 2 read_column.
  next_column "dropoff_latitude". do 2 read_column.
  next_column "fare_amount". do 5 read_column.
  next_column "passenger_count".
  discriminate.
Qed.

Lemma stage_two_refused (cols : list string) (D S : list Row) :
  forallb accepted S = false ->
  exists r why,
    In r S /\ refusal r = Some why
    /\ stage_two (mkFrame cols D) (mkFrame cols S) = Raise (ValueError why).
Proof.
  intros H. destruct (each_row_refused geodesic_miles S H) as (r & why & Hin & Hr & E).
  exists r, why. split; [ exact Hin | ]. split; [ exact Hr | ].
  unfold stage_two, apply_rows. cbn [rows].
  destruct S as [ | x S ]; [ destruct Hin | ]. now rewrite E.
Qed.

Lemma stage_two_run (cols : list string) (D S : list Row) :
  S <> [] ->
  forallb accepted S = true ->
  stage_two (mkFrame cols D) (mkFrame cols S)
  = Return (mkFrame (add_column "distance_miles" cols)
                    (filter (fun r => negb (invalid_distance r)) (map measured S)),
            mkFrame (add_column "distance_miles" cols)
                    ((if existsb (String.eqb "distance_miles") cols then D
                      else map (set_distance_miles PrimFloat.nan) D)
                     ++ filter invalid_distance (map measured S))).
Proof.
  intros Hne Hacc. unfold stage_two, apply_rows. cbn [rows].
  rewrite (each_row_accepted geodesic_miles S Hacc).
  destruct S as [ | x S ]; [ congruence | ].
  set (l := x :: S).
  unfold set_applied, set_column, loc_mask, concat, le_scalar.
  cbn [rows columns].
  rewrite assign_map.
  change (map (fun r => set_distance_miles
                          (geodesic_miles (pickup_point r) (dropoff_point r)) r) l)
    with (map measured l).
  rewrite map_map.
  change (fun x0 : Row => Some (PrimFloat.leb (distance_miles x0) 0))
    with (fun x0 : Row => Some (invalid_distance x0)).
  rewrite series_not_map, !select_map.
  cbn [is_true not3].
  rewrite (filter_ext (fun r => is_true (Some (invalid_distance r))) invalid_distance)
    by (intros r; destruct (invalid_distance r); reflexivity).
  rewrite (filter_ext (fun r => is_true (Some (negb (invalid_distance r))))
                      (fun r => negb (invalid_distance r)))
    by (intros r; destruct (invalid_distance r); reflexivity).
  do 2 f_equal. unfold reindex, has_column. cbn [columns rows].
  rewrite union_add_column. f_equal.
  rewrite !has_column_added, String.eqb_refl, orb_true_r.
  cbn [andb negb].
  destruct (existsb (String.eqb "distance_miles") cols); reflexivity.
Qed.

(** The frame that reaches the distance step holds the converted
    survivors. *)
Lemma survivors_converted (b : Bounds) (df : DataFrame) :
  filter (fun r => is_true (not3 (initial_combined b r))) (map converted (rows df))
  = map converted (survivors b df).
Proof.
  unfold survivors. now rewrite filter_map_swap.
Qed.

Lemma accepted_converted (l : list Row) :
  forallb accepted (map converted l) = forallb accepted l.
Proof.
  induction l as [ | r l IH ]; cbn [map forallb]; [ reflexivity | ].
  rewrite IH. reflexivity.
Qed.

Lemma results_of_survivors (b : Bounds) (df : DataFrame) :
  filter (fun r => negb (invalid_distance r)) (map measured (map converted (survivors b df)))
  = cleaned_rows b df
  /\ (if existsb (String.eqb "distance_miles") (columns (converted_frame df))
      then filter (fun r => is_true (initial_combined b r)) (map converted (rows df))
      else map (set_distance_miles PrimFloat.nan)
               (filter (fun r => is_true (initial_combined b r))
                       (map converted (rows df))))
     ++ filter invalid_distance (map measured (map converted (survivors b df)))
     = dropped_rows b df.
Proof.
  unfold cleaned_rows, dropped_rows, survivors. split.
  - rewrite !map_map, filter_map_swap, filter_twice. reflexivity.
  - f_equal.
    + cbn [columns converted_frame]. rewrite has_column_added.
      replace ("distance_miles" =? "pickup_hour")%string with false by reflexivity.
      rewrite orb_false_r, filter_map_swap. unfold rejected, has_column.
      destruct (existsb (String.eqb "distance_miles") (columns df));
        [ reflexivity | now rewrite map_map ].
    + rewrite !map_map, filter_map_swap, filter_twice. reflexivity.
Qed.

(** The whole function on a frame with the seven columns whose rows
    reach the distance step and are accepted there. *)
Theorem clean_run (b : Bounds) (df : DataFrame) :
  has_required df = true ->
  survivors b df <> [] ->
  forallb accepted (survivors b df) = true ->
  clean b df
  = (converted_frame df,
     Return (mkFrame (add_column "distance_miles" (columns (converted_frame df)))
                     (cleaned_rows b df),
             mkFrame (add_column "distance_miles" (columns (converted_frame df)))
                     (dropped_rows b df))).
Proof.
  intros H Hne Hacc. unfold clean, clean_uber_data, bind.
  rewrite stage_one_run by exact H. unfold lift. cbn [fst snd rows converted_frame].
  rewrite survivors_converted.
  rewrite stage_two_run.
  - destruct (results_of_survivors b df) as [-> ->]. reflexivity.
  - destruct (survivors b df); [ congruence | discriminate ].
  - now rewrite accepted_converted.
Qed.

(** The whole function when no row reaches the distance step. *)
Theorem clean_without_survivors (b : Bounds) (df : DataFrame) :
  has_required df = true ->
  survivors b df = [] ->
  clean b df = (converted_frame df, Raise (ValueError FrameForColumn)).
Proof.
  intros H He. unfold clean, clean_uber_data, bind.
  rewrite stage_one_run by exact H. unfold lift. cbn [fst snd rows converted_frame].
  rewrite survivors_converted, He. reflexivity.
Qed.

(** The whole function when the library refuses a row. *)
Theorem clean_with_refusal (b : Bounds) (df : DataFrame) :
  has_required df = true ->
  forallb accepted (survivors b df) = false ->
  exists r why,
    In r (survivors b df) /\ refusal r = Some why
    /\ clean b df = (converted_frame df, Raise (ValueError why)).
Proof.
  intros H Hacc. unfold clean, clean_uber_data, bind.
  rewrite stage_one_run by exact H. unfold lift. cbn [fst snd rows converted_frame].
  rewrite survivors_converted.
  rewrite <- accepted_converted in Hacc.
  destruct (stage_two_refused
              (columns (converted_frame df))
              (filter (fun r => is_true (initial_combined b r)) (map converted (rows df)))
              _ Hacc) as (x & why & Hin & Hr & E).
  apply in_map_iff in Hin. destruct Hin as (r & <- & Hin).
  exists r, why. split; [ exact Hin | ]. split; [ exact Hr | ].
  now rewrite E.
Qed.

(** What a call that returns tells. *)
Theorem clean_returns (b : Bounds) (df df' cleaned dropped : DataFrame) :
  clean b df = (df', Return (cleaned, dropped)) ->
  has_required df = true
  /\ survivors b df <> []
  /\ forallb accepted (survivors b df) = true
  /\ df' = converted_frame df
  /\ cleaned = mkFrame (add_column "distance_miles" (columns (converted_frame df)))
                       (cleaned_rows b df)
  /\ dropped = mkFrame (add_column "distance_miles" (columns (converted_frame df)))
                       (dropped_rows b df).
Proof.
  intros E.
  destruct (has_required df) eqn:H.
  - destruct (survivors b df) as [ | x l ] eqn:S.
    + rewrite (clean_without_survivors b df H S) in E. discriminate.
    + destruct (forallb accepted (survivors b df)) eqn:A.
      * rewrite (clean_run b df H) in E by (try rewrite S; congruence).
        injection E as <- <- <-. rewrite <- S, A.
        repeat split; try reflexivity. rewrite S. discriminate.
      * destruct (clean_with_refusal b df H A) as (r & why & _ & _ & E').
        rewrite E' in E. discriminate.
  - destruct (first_missing df) as [ c | ] eqn:F.
    + unfold clean, clean_uber_data, bind in E.
      rewrite (stage_one_fails b df c F) in E. discriminate.
    + apply first_missing_none in F. congruence.
Qed.


(* ================================================================= *)
(** ** Where a row ends up *)

Lemma survives_spec (b : Bounds) (r : Row) :
  survives b r = true <-> initial_combined b (converted r) = Some false.
Proof. apply is_true_not3. Qed.

Lemma fails_first_spec (b : Bounds) (r : Row) :
  fails_first b r = true <-> initial_combined b (converted r) = Some true.
Proof. apply is_true_some. Qed.

Lemma survives_not_fails (b : Bounds) (r : Row) :
  survives b r = true -> fails_first b r = false.
Proof.
  intros H. apply survives_spec in H. unfold fails_first. now rewrite H.
Qed.

Lemma fails_not_survives (b : Bounds) (r : Row) :
  fails_first b r = true -> survives b r = false.
Proof.
  intros H. apply fails_first_spec in H. unfold survives. now rewrite H.
Qed.

(** Flagged, passed and undecided: one of the three, and one only. *)
Lemma verdict_cases (b : Bounds) (r : Row) :
  fails_first b r || survives b r = negb (undecided parse_datetime b r).
Proof.
  unfold fails_first, survives, undecided.
  destruct (initial_combined b (converted r)) as [ [ | ] | ]; reflexivity.
Qed.

(** The masks of the first stage do not read the derived columns. *)
Lemma combined_delivered (b : Bounds) (r : Row) :
  initial_combined b (delivered r) = initial_combined b (converted r).
Proof. reflexivity. Qed.

Lemma combined_rejected (b : Bounds) (df : DataFrame) (r : Row) :
  initial_combined b (rejected df r) = initial_combined b (converted r).
Proof.
  unfold rejected. destruct (has_column "distance_miles" df); reflexivity.
Qed.

Lemma kept_survivor (b : Bounds) (df : DataFrame) (r : Row) :
  In r (rows df) -> survives b r = true -> In r (survivors b df).
Proof.
  intros Hr Hs. apply filter_In. now split.
Qed.

(** A row that reaches the distance step of a call that returns is
    accepted by the library, and delivered with the distance of its own
    two points. *)
Lemma survivor_measured (b : Bounds) (df : DataFrame) (r : Row) :
  forallb accepted (survivors b df) = true ->
  In r (rows df) -> survives b r = true ->
  trip_distance geodesic_miles (delivered r) = Return (distance_miles (delivered r)).
Proof.
  intros Hacc Hr Hs. rewrite trip_distance_outcome.
  rewrite forallb_forall in Hacc.
  specialize (Hacc r (kept_survivor b df r Hr Hs)).
  apply refusal_accepted in Hacc.
  change (refusal (delivered r)) with (refusal r). rewrite Hacc. reflexivity.
Qed.

Section Fate.

Variable b : Bounds.
Variable df : DataFrame.

Lemma cleaned_row_origin (x : Row) :
  In x (cleaned_rows b df) ->
  exists r, In r (rows df) /\ x = delivered r
            /\ survives b r = true /\ fails_second r = false.
Proof.
  unfold cleaned_rows. rewrite in_map_iff. intros (r & <- & Hr).
  apply filter_In in Hr. destruct Hr as [Hr Hk].
  unfold kept in Hk. rewrite andb_true_iff, negb_true_iff in Hk.
  exists r. tauto.
Qed.

Lemma cleaned_row_passes (x : Row) :
  In x (cleaned_rows b df) ->
  initial_combined b x = Some false /\ invalid_distance x = false.
Proof.
  intros Hx. destruct (cleaned_row_origin x Hx) as (r & _ & -> & Hs & Hd).
  rewrite combined_delivered. split; [ apply survives_spec, Hs | exact Hd ].
Qed.

Lemma dropped_row_fails (x : Row) :
  In x (dropped_rows b df) ->
  initial_combined b x = Some true
  \/ (initial_combined b x = Some false /\ invalid_distance x = true).
Proof.
  unfold dropped_rows. rewrite in_app_iff, !in_map_iff.
  intros [(r & <- & Hr) | (r & <- & Hr)]; apply filter_In in Hr; destruct Hr as [_ Hk].
  - left. rewrite combined_rejected. apply fails_first_spec, Hk.
  - right. apply andb_true_iff in Hk. destruct Hk as [Hs Hd].
    rewrite combined_delivered. split; [ apply survives_spec, Hs | exact Hd ].
Qed.

Lemma fate_first (r : Row) :
  In r (rows df) -> fails_first b r = true ->
  In (rejected df r) (dropped_rows b df) /\ ~ In (delivered r) (cleaned_rows b df).
Proof.
  intros Hr Hf. split.
  - unfold dropped_rows. apply in_or_app. left. apply in_map, filter_In. now split.
  - intros Hc. apply cleaned_row_passes in Hc. destruct Hc as [Hc _].
    rewrite combined_delivered in Hc. apply fails_first_spec in Hf. congruence.
Qed.

Lemma fate_kept (r : Row) :
  In r (rows df) -> kept b r = true ->
  In (delivered r) (cleaned_rows b df) /\ ~ In (delivered r) (dropped_rows b df).
Proof.
  intros Hr Hk. split.
  - unfold cleaned_rows. apply in_map, filter_In. now split.
  - intros Hd. apply dropped_row_fails in Hd.
    unfold kept in Hk. rewrite andb_true_iff, negb_true_iff in Hk.
    destruct Hk as [Hs Hk]. apply survives_spec in Hs.
    rewrite combined_delivered in Hd.
    destruct Hd as [Hd | [_ Hd]]; [ congruence | ].
    unfold fails_second in Hk. congruence.
Qed.

Lemma fate_second (r : Row) :
  In r (rows df) -> survives b r = true -> fails_second r = true ->
  In (delivered r) (dropped_rows b df) /\ ~ In (delivered r) (cleaned_rows b df).
Proof.
  intros Hr Hf Hs. split.
  - unfold dropped_rows. apply in_or_app. right.
    apply in_map, filter_In. split; [ exact Hr | ]. now rewrite Hf, Hs.
  - intros Hc. apply cleaned_row_passes in Hc.
    destruct Hc as [_ Hc]. unfold fails_second in Hs. congruence.
Qed.

End Fate.

(* ================================================================= *)
(** ** What the function leaves alone *)

Lemma passthrough_rejected (df : DataFrame) (r : Row) :
  passthrough (rejected df r) = passthrough r.
Proof.
  unfold rejected. destruct (has_column "distance_miles" df); reflexivity.
Qed.

Lemma without_distance_rejected (df : DataFrame) (r : Row) :
  without_distance (rejected df r) = without_distance (converted r).
Proof.
  unfold rejected. destruct (has_column "distance_miles" df); reflexivity.
Qed.

(** The rows of the two results are the input rows whose combined mask is
    not [<NA>]. *)
Lemma outputs_permute_decided (b : Bounds) (df : DataFrame) :
  Permutation (map passthrough (cleaned_rows b df ++ dropped_rows b df))
              (map passthrough
                   (filter (fun r => negb (undecided parse_datetime b r)) (rows df))).
Proof.
  unfold cleaned_rows, dropped_rows. rewrite !map_app, !map_map.
  rewrite (map_ext (fun r => passthrough (rejected df r)) passthrough
                   (passthrough_rejected df)).
  change (fun x : Row => passthrough (delivered x)) with passthrough.
  rewrite <- !map_app. apply Permutation_map.
  rewrite <- (filter_ext _ _ (verdict_cases b)).
  apply (filter_three_ways (fails_first b) (survives b) fails_second).
  intros x. apply fails_not_survives.
Qed.

Lemma labels_of_cleaned (b : Bounds) (df : DataFrame) :
  map label (cleaned_rows b df) = filter_labels (kept b) (rows df).
Proof.
  unfold cleaned_rows, filter_labels. rewrite map_map. reflexivity.
Qed.

Lemma labels_of_dropped (b : Bounds) (df : DataFrame) :
  map label (dropped_rows b df)
  = filter_labels (fails_first b) (rows df)
    ++ filter_labels (fun r => survives b r && fails_second r) (rows df).
Proof.
  unfold dropped_rows, filter_labels. rewrite map_app, !map_map. f_equal.
  apply map_ext. intros r. unfold rejected.
  destruct (has_column "distance_miles" df); reflexivity.
Qed.

(* ================================================================= *)
(** ** Order *)

(** C7: filtering keeps the order of the rows.  In a call that returns,
    the cleaned set is the kept input rows in their input order; the
    dropped set is the rows flagged by the six first predicates, in input
    order, followed by the rows that passed them and are flagged by the
    distance predicate, in input order. *)
Theorem clean_preserves_order (b : Bounds) (df df' cleaned dropped : DataFrame) :
  clean b df = (df', Return (cleaned, dropped)) ->
  rows cleaned = map delivered (filter (kept b) (rows df))
  /\ rows dropped
     = map (rejected df) (filter (fails_first b) (rows df))
       ++ map delivered
            (filter (fun r => survives b r && fails_second r) (rows df))
  /\ map label (rows cleaned) = filter_labels (kept b) (rows df)
  /\ map label (rows dropped)
     = filter_labels (fails_first b) (rows df)
       ++ filter_labels (fun r => survives b r && fails_second r) (rows df).
Proof.
  intros E. apply clean_returns in E. destruct E as (_ & _ & _ & _ & -> & ->).
  cbn [rows].
  split; [ reflexivity | ]. split; [ reflexivity | ].
  split; [ apply labels_of_cleaned | apply labels_of_dropped ].
Qed.

(* ================================================================= *)
(** ** The caller's frame *)

(** The frame is converted as soon as [pickup_datetime] has been read,
    whatever the call does after. *)
Lemma caller_frame_after (b : Bounds) (df : DataFrame) :
  has_column "pickup_datetime" df = true ->
  fst (clean b df) = converted_frame df.
Proof.
  intros Hc. destruct (first_missing df) as [ c | ] eqn:F.
  - unfold clean, clean_uber_data, bind.
    rewrite (stage_one_fails b df c F). cbn [fst].
    destruct (String.eqb_spec c "pickup_datetime") as [-> | _]; [ | reflexivity ].
    unfold first_missing in F. apply find_some in F. destruct F as [_ F].
    rewrite Hc in F. discriminate.
  - apply first_missing_none in F. unfold clean, clean_uber_data, bind.
    rewrite (stage_one_run b df F). reflexivity.
Qed.

(** C3, as the code has it: the call converts the caller's frame in place.
    After a call that returns, the frame holds the parsed timestamps in
    [pickup_datetime] and has the column [pickup_hour]; the number and
    order of its rows, every column the function only reads and the
    presence and content of [distance_miles] are as before, and
    [distance_miles] is written to the two returned frames only. *)
Theorem clean_converts_caller_frame (b : Bounds) (df df' cleaned dropped : DataFrame) :
  clean b df = (df', Return (cleaned, dropped)) ->
  columns df' = add_column "pickup_hour" (columns df)
  /\ rows df' = map converted (rows df)
  /\ map passthrough (rows df') = map passthrough (rows df)
  /\ map distance_miles (rows df') = map distance_miles (rows df)
  /\ has_column "distance_miles" df' = has_column "distance_miles" df
  /\ has_column "distance_miles" cleaned = true
  /\ has_column "distance_miles" dropped = true.
Proof.
  intros E. apply clean_returns in E. destruct E as (_ & _ & _ & -> & -> & ->).
  cbn [rows columns converted_frame].
  split; [ reflexivity | ]. split; [ reflexivity | ].
  split; [ rewrite map_map; reflexivity | ].
  split; [ rewrite map_map; reflexivity | ].
  split; [ rewrite has_column_converted; apply orb_false_r | ].
  split; unfold has_column; cbn [columns];
    rewrite has_column_added, String.eqb_refl; apply orb_true_r.
Qed.

(* ================================================================= *)
(** ** The rows of the cleaned set *)

Lemma valid_timestamp_converted (r : Row) :
  invalid_datetime (converted r) = false -> valid_timestamp (delivered r) = true.
Proof.
  unfold invalid_datetime, valid_timestamp, delivered, measured, converted.
  cbn [pickup_datetime set_distance_miles set_pickup_hour set_pickup_datetime].
  destruct (pickup_datetime r) as [ str | ns | ]; cbn [to_datetime];
    try destruct (parse_datetime str); cbn [isnat]; congruence.
Qed.

(** C2, as the code has it: in a call that returns, with a library that
    returns numbers, every row of the cleaned set has a parsed timestamp
    and four coordinates that are numbers, none below a minimum or above
    a maximum that is a number; its fare is above 0 or NaN, its passenger
    count is NaN or above 0 and at most 10, and its distance is above
    0. *)
Theorem cleaned_rows_pass_the_masks (b : Bounds) (df df' cleaned dropped : DataFrame) :
  clean b df = (df', Return (cleaned, dropped)) ->
  measures_numbers parse_datetime geodesic_miles b df = true ->
  Forall (fun r =>
            valid_timestamp r = true
            /\ coordinates_present r = true
            /\ coordinates_bounded b r = true
            /\ fare_let_through (fare_amount r) = true
            /\ count_let_through (passenger_count r) = true
            /\ is_positive (distance_miles r) = true)
         (rows cleaned).
Proof.
  intros E Hm. apply clean_returns in E. destruct E as (_ & _ & _ & _ & -> & _).
  cbn [rows]. apply Forall_forall. intros x Hx.
  destruct (cleaned_row_origin b df x Hx) as (r & Hr & -> & Hs & Hd).
  pose proof (proj1 (survives_spec b r) Hs) as Hi.
  apply initial_combined_false in Hi.
  destruct Hi as (Ho & Hf & Hn & Hz & Ht & Hh).
  split; [ apply valid_timestamp_converted, Ht | ].
  split; [ apply survivor_present, Hn | ].
  split; [ apply survivor_bounded; [ exact Ho | exact Hn ] | ].
  split; [ apply fare_unflagged, Hf | ].
  split; [ apply count_unflagged; [ exact Hz | exact Hh ] | ].
  unfold measures_numbers in Hm. rewrite forallb_forall in Hm.
  specialize (Hm r (kept_survivor b df r Hr Hs)). apply negb_true_iff in Hm.
  apply FloatFacts.leb_false_ltb; [ exact Hd | exact Hm | reflexivity ].
Qed.

(* ================================================================= *)
(** ** Fare and passenger count *)

Lemma kept_except_fare (b : Bounds) (r : Row) :
  passes_except_fare parse_datetime geodesic_miles b r = true ->
  invalid_fare r = Some false -> kept b r = true.
Proof.
  unfold passes_except_fare, kept. rewrite !andb_true_iff, !negb_true_iff.
  intros [[[[[P1 P2] P3] P4] P5] P6] F.
  apply is_true_not3 in P3. apply is_true_not3 in P5.
  split; [ | exact P6 ].
  apply survives_spec, initial_combined_false.
  split; [ exact P1 | ]. split; [ exact F | ]. split; [ exact P2 | ].
  split; [ exact P3 | ]. split; [ exact P4 | exact P5 ].
Qed.

Lemma kept_except_count (b : Bounds) (r : Row) :
  passes_except_count parse_datetime geodesic_miles b r = true ->
  zero_passenger r = Some false -> high_passenger_count r = Some false ->
  kept b r = true.
Proof.
  unfold passes_except_count, kept. rewrite !andb_true_iff, !negb_true_iff.
  intros [[[[P1 P2] P3] P4] P5] Z0 Z1.
  apply is_true_not3 in P2.
  split; [ | exact P5 ].
  apply survives_spec, initial_combined_false.
  split; [ exact P1 | ]. split; [ exact P2 | ]. split; [ exact P3 | ].
  split; [ exact Z0 | ]. split; [ exact P4 | exact Z1 ].
Qed.

Lemma kept_except_range (b : Bounds) (r : Row) :
  passes_except_range parse_datetime geodesic_miles r = true ->
  out_of_range b r = false -> kept b r = true.
Proof.
  unfold passes_except_range, kept. rewrite !andb_true_iff, !negb_true_iff.
  intros [[[[[P1 P2] P3] P4] P5] P6] O.
  apply is_true_not3 in P1. apply is_true_not3 in P3. apply is_true_not3 in P5.
  split; [ | exact P6 ].
  apply survives_spec, initial_combined_false.
  split; [ exact O | ]. split; [ exact P1 | ]. split; [ exact P2 | ].
  split; [ exact P3 | ]. split; [ exact P4 | exact P5 ].
Qed.

Lemma fails_first_fare (b : Bounds) (r : Row) :
  invalid_fare r = Some true -> fails_first b r = true.
Proof.
  intros H. apply fails_first_spec, flagged_by_fare, H.
Qed.

Lemma fails_first_zero (b : Bounds) (r : Row) :
  zero_passenger r = Some true -> fails_first b r = true.
Proof.
  intros H. apply fails_first_spec, flagged_by_zero, H.
Qed.

Lemma fails_first_high (b : Bounds) (r : Row) :
  high_passenger_count r = Some true -> fails_first b r = true.
Proof.
  intros H. apply fails_first_spec, flagged_by_high, H.
Qed.

Lemma cell_equals_value (c : Cell) (v : float) :
  cell_equals c v = true -> exists x, c = Value x /\ PrimFloat.eqb x v = true.
Proof.
  destruct c as [ x | ]; cbn [cell_equals]; [ | discriminate ].
  intros H. now exists x.
Qed.

Ltac pin_cell E x :=
  apply cell_equals_value in E; destruct E as (x & E & Ex);
  try (eapply FloatFacts.eqb_finite in Ex; [ | vm_compute; reflexivity ]).

(** C5: in a call that returns, a row whose fare equals 0 is dropped, and
    one whose fare equals 0.01 is kept when every other predicate passes;
    a row whose passenger count equals 0 or 11 is dropped, and one whose
    count equals 10 is kept when every other predicate passes. *)
Theorem fare_and_count_boundaries (b : Bounds) (df df' cleaned dropped : DataFrame)
        (r : Row) :
  clean b df = (df', Return (cleaned, dropped)) ->
  In r (rows df) ->
  (cell_equals (fare_amount r) 0%float = true ->
   In (rejected df r) (rows dropped) /\ ~ In (delivered r) (rows cleaned))
  /\ (cell_equals (fare_amount r) 0.01%float = true ->
      passes_except_fare parse_datetime geodesic_miles b r = true ->
      In (delivered r) (rows cleaned) /\ ~ In (delivered r) (rows dropped))
  /\ (cell_equals (passenger_count r) 0%float = true ->
      In (rejected df r) (rows dropped) /\ ~ In (delivered r) (rows cleaned))
  /\ (cell_equals (passenger_count r) 10%float = true ->
      passes_except_count parse_datetime geodesic_miles b r = true ->
      In (delivered r) (rows cleaned) /\ ~ In (delivered r) (rows dropped))
  /\ (cell_equals (passenger_count r) 11%float = true ->
      In (rejected df r) (rows dropped) /\ ~ In (delivered r) (rows cleaned)).
Proof.
  intros E Hr. apply clean_returns in E. destruct E as (_ & _ & _ & _ & -> & ->).
  cbn [rows].
  split; [ | split; [ | split; [ | split ] ] ].
  - intros E. apply fate_first; [ exact Hr | ].
    apply cell_equals_value in E. destruct E as (x & E & Ex).
    apply fails_first_fare. unfold invalid_fare. rewrite E. cbn [cell_le].
    now rewrite (FloatFacts.eqb_leb _ _ Ex).
  - intros E Hp. apply fate_kept; [ exact Hr | ].
    apply kept_except_fare; [ exact Hp | ].
    pin_cell E x. unfold invalid_fare. rewrite E, Ex. reflexivity.
  - intros E. apply fate_first; [ exact Hr | ].
    apply cell_equals_value in E. destruct E as (x & E & Ex).
    apply fails_first_zero. unfold zero_passenger. rewrite E. cbn [cell_le].
    now rewrite (FloatFacts.eqb_leb _ _ Ex).
  - intros E Hp. apply fate_kept; [ exact Hr | ].
    pin_cell E x.
    apply kept_except_count; [ exact Hp | | ];
      unfold zero_passenger, high_passenger_count; rewrite E, Ex; reflexivity.
  - intros E. apply fate_first; [ exact Hr | ].
    pin_cell E x.
    apply fails_first_high. unfold high_passenger_count. rewrite E, Ex. reflexivity.
Qed.

(** C9: a fare that is NaN makes [fare_amount <= 0] false, and a
    passenger count that is NaN makes both [passenger_count <= 0] and
    [passenger_count > 10] false; in a call that returns, such a row is
    delivered in the cleaned set and not in the dropped one when every
    other predicate passes. *)
Theorem missing_fare_or_count_is_kept (b : Bounds) (df df' cleaned dropped : DataFrame)
        (r : Row) :
  clean b df = (df', Return (cleaned, dropped)) ->
  In r (rows df) ->
  (cell_nan (fare_amount r) = true ->
   invalid_fare r = Some false
   /\ (passes_except_fare parse_datetime geodesic_miles b r = true ->
       In (delivered r) (rows cleaned) /\ ~ In (delivered r) (rows dropped)))
  /\ (cell_nan (passenger_count r) = true ->
      zero_passenger r = Some false
      /\ high_passenger_count r = Some false
      /\ (passes_except_count parse_datetime geodesic_miles b r = true ->
          In (delivered r) (rows cleaned) /\ ~ In (delivered r) (rows dropped))).
Proof.
  intros E Hr. apply clean_returns in E. destruct E as (_ & _ & _ & _ & -> & ->).
  cbn [rows]. split.
  - intros N. destruct (nan_fare_unflagged _ N) as [F _].
    split; [ exact F | ].
    intros Hp. apply fate_kept; [ exact Hr | ].
    apply kept_except_fare; assumption.
  - intros N. destruct (nan_fare_unflagged _ N) as [Z0 Z1].
    split; [ exact Z0 | split; [ exact Z1 | ] ].
    intros Hp. apply fate_kept; [ exact Hr | ].
    apply kept_except_count; assumption.
Qed.

(* ================================================================= *)
(** ** Which calls return *)

(** The first row that the library refuses decides the exception. *)
Lemma each_row_first (l : list Row) (r : Row) :
  find (fun x => negb (accepted x)) l = Some r ->
  exists why,
    refusal r = Some why
    /\ each_row (trip_distance geodesic_miles) (map converted l)
       = Raise (ValueError why).
Proof.
  induction l as [ | x l IH ]; cbn [find map each_row]; [ discriminate | ].
  rewrite trip_distance_outcome.
  change (refusal (converted x)) with (refusal x).
  destruct (accepted x) eqn:A; cbn [negb].
  - intros F. destruct (IH F) as (why & Hr & E). exists why.
    apply refusal_accepted in A. rewrite A, E. split; [ exact Hr | reflexivity ].
  - intros F. injection F as <-.
    destruct (refusal x) as [ why | ] eqn:R.
    + exists why. split; reflexivity.
    + apply refusal_accepted in R. congruence.
Qed.

Lemma clean_first_refusal (b : Bounds) (df : DataFrame) (r : Row) :
  has_required df = true ->
  find (fun x => negb (accepted x)) (survivors b df) = Some r ->
  exists why,
    refusal r = Some why
    /\ clean b df = (converted_frame df, Raise (ValueError why)).
Proof.
  intros H F. destruct (each_row_first _ r F) as (why & Hr & E).
  exists why. split; [ exact Hr | ].
  unfold clean, clean_uber_data, bind.
  rewrite stage_one_run by exact H. unfold lift. cbn [fst snd rows converted_frame].
  rewrite survivors_converted.
  unfold stage_two, apply_rows. cbn [rows]. rewrite E.
  destruct (survivors b df); [ discriminate | reflexivity ].
Qed.

(* ================================================================= *)
(** ** A second run *)

Lemma converted_delivered (r : Row) : converted (delivered r) = delivered r.
Proof.
  unfold delivered, measured, converted.
  destruct r as [ i d plon plat dlon dlat fare count hour dist ].
  unfold set_distance_miles, set_pickup_hour, set_pickup_datetime.
  cbn [label pickup_datetime pickup_longitude pickup_latitude dropoff_longitude
       dropoff_latitude fare_amount passenger_count pickup_hour distance_miles].
  destruct d as [ str | ns | ]; cbn [to_datetime];
    try destruct (parse_datetime str); reflexivity.
Qed.

Lemma delivered_delivered (r : Row) : delivered (delivered r) = delivered r.
Proof.
  unfold delivered at 1. rewrite converted_delivered. reflexivity.
Qed.

Lemma kept_delivered (b : Bounds) (r : Row) : kept b (delivered r) = kept b r.
Proof.
  unfold kept, survives, fails_second.
  rewrite delivered_delivered, converted_delivered. reflexivity.
Qed.

Lemma converted_converted (r : Row) : converted (converted r) = converted r.
Proof.
  unfold converted.
  destruct r as [ i d plon plat dlon dlat fare count hour dist ].
  unfold set_pickup_hour, set_pickup_datetime.
  cbn [label pickup_datetime pickup_longitude pickup_latitude dropoff_longitude
       dropoff_latitude fare_amount passenger_count pickup_hour distance_miles].
  destruct d as [ str | ns | ]; cbn [to_datetime];
    try destruct (parse_datetime str); reflexivity.
Qed.

Lemma delivered_converted (r : Row) : delivered (converted r) = delivered r.
Proof.
  unfold delivered. now rewrite converted_converted.
Qed.

Lemma survives_converted (b : Bounds) (r : Row) :
  survives b (converted r) = survives b r.
Proof.
  unfold survives. now rewrite converted_converted.
Qed.

Lemma fails_first_converted (b : Bounds) (r : Row) :
  fails_first b (converted r) = fails_first b r.
Proof.
  unfold fails_first. now rewrite converted_converted.
Qed.

Lemma fails_second_converted (r : Row) :
  fails_second (converted r) = fails_second r.
Proof.
  unfold fails_second. now rewrite delivered_converted.
Qed.

Lemma kept_converted (b : Bounds) (r : Row) : kept b (converted r) = kept b r.
Proof.
  unfold kept. now rewrite survives_converted, fails_second_converted.
Qed.

Lemma converted_frame_twice (df : DataFrame) :
  converted_frame (converted_frame df) = converted_frame df.
Proof.
  unfold converted_frame. cbn [columns rows]. f_equal.
  - apply add_column_present.
    rewrite has_column_added, String.eqb_refl. apply orb_true_r.
  - rewrite map_map. apply map_ext, converted_converted.
Qed.

Lemma survivors_of_converted (b : Bounds) (df : DataFrame) :
  survivors b (converted_frame df) = map converted (survivors b df).
Proof.
  unfold survivors. cbn [rows converted_frame].
  rewrite filter_map_swap. f_equal. apply filter_ext, survives_converted.
Qed.

Lemma cleaned_rows_converted (b : Bounds) (df : DataFrame) :
  cleaned_rows b (converted_frame df) = cleaned_rows b df.
Proof.
  unfold cleaned_rows. cbn [rows converted_frame].
  rewrite filter_map_swap, map_map.
  rewrite (filter_ext _ _ (kept_converted b)).
  apply map_ext, delivered_converted.
Qed.

Lemma dropped_rows_converted (b : Bounds) (df : DataFrame) :
  dropped_rows b (converted_frame df) = dropped_rows b df.
Proof.
  unfold dropped_rows. cbn [rows converted_frame].
  rewrite !filter_map_swap, !map_map.
  rewrite (filter_ext _ _ (fails_first_converted b)).
  rewrite (filter_ext (fun r => survives b (converted r)
                                && fails_second (converted r))
                      (fun r => survives b r && fails_second r))
    by (intros r; now rewrite survives_converted, fails_second_converted).
  f_equal; apply map_ext; intros r.
  - unfold rejected. rewrite has_column_converted.
    replace ("distance_miles" =? "pickup_hour")%string with false by reflexivity.
    rewrite orb_false_r, converted_converted. reflexivity.
  - apply delivered_converted.
Qed.

(** The cleaned set of a call that returned, given back to the function:
    it has the columns, every row of it passes the seven masks again, and
    the library accepts every row of it again. *)
Lemma cleaned_frame_again (b : Bounds) (df : DataFrame) :
  has_required df = true ->
  forallb accepted (survivors b df) = true ->
  let cleaned := mkFrame (add_column "distance_miles" (columns (converted_frame df)))
                         (cleaned_rows b df) in
  has_required cleaned = true
  /\ converted_frame cleaned = cleaned
  /\ survivors b cleaned = rows cleaned
  /\ forallb accepted (rows cleaned) = true
  /\ cleaned_rows b cleaned = rows cleaned
  /\ dropped_rows b cleaned = [].
Proof.
  intros H Hacc cleaned. subst cleaned.
  set (cols := add_column "distance_miles" (columns (converted_frame df))).
  assert (Hl : forall x, In x (cleaned_rows b df) ->
                 delivered x = x /\ converted x = x /\ kept b x = true
                 /\ accepted x = true).
  { intros x Hx. destruct (cleaned_row_origin b df x Hx) as (r & Hr & -> & Hs & Hd).
    rewrite delivered_delivered, converted_delivered, kept_delivered.
    split; [ reflexivity | ]. split; [ reflexivity | ]. split.
    - unfold kept. now rewrite Hs, Hd.
    - rewrite forallb_forall in Hacc. apply (Hacc r), kept_survivor; assumption. }
  assert (Hk : forall x, In x (cleaned_rows b df) ->
                 survives b x = true /\ fails_second x = false /\ fails_first b x = false).
  { intros x Hx. destruct (Hl x Hx) as (_ & _ & K & _).
    unfold kept in K. rewrite andb_true_iff, negb_true_iff in K.
    destruct K as [K1 K2]. split; [ exact K1 | ]. split; [ exact K2 | ].
    apply survives_not_fails, K1. }
  assert (Hhour : existsb (String.eqb "pickup_hour") cols = true).
  { unfold cols. cbn [columns converted_frame].
    rewrite !has_column_added, String.eqb_refl, orb_true_r. reflexivity. }
  split.
  { apply (has_required_more _ _ (rows df)). cbn [columns converted_frame].
    apply (has_required_more _ _ (rows df)). now destruct df. }
  split.
  { unfold converted_frame at 1. cbn [columns rows].
    rewrite (add_column_present _ _ Hhour). f_equal.
    apply map_fixed. intros x Hx. apply Hl, Hx. }
  split.
  { unfold survivors. cbn [rows].
    apply filter_all. intros x Hx. apply Hk, Hx. }
  split.
  { cbn [rows]. apply forallb_forall. intros x Hx. apply Hl, Hx. }
  split.
  { unfold cleaned_rows at 1. cbn [rows].
    rewrite (filter_all (kept b)) by (intros x Hx; apply Hl, Hx).
    apply map_fixed. intros x Hx. apply Hl, Hx. }
  unfold dropped_rows. cbn [rows].
  rewrite !filter_none; [ reflexivity | | ]; intros x Hx;
    destruct (Hk x Hx) as (K1 & K2 & K3); rewrite ?K1, ?K2, ?K3; reflexivity.
Qed.

(* ================================================================= *)
(** ** Further properties of the function *)

(** *** The failure paths *)

(** X1: the call fails with a [KeyError] that names the first required column
    the frame lacks, in the order the function reads the columns. *)
Theorem key_error_names_first_missing (b : Bounds) (df : DataFrame) (c : string) :
  first_missing df = Some c ->
  exists df', clean b df = (df', Raise (KeyError c)).
Proof.
  intros H. eexists.
  unfold clean, clean_uber_data, bind.
  rewrite (stage_one_fails b df c H). reflexivity.
Qed.

(** X2: when the call fails for a missing [pickup_datetime] the caller's frame
    is as it was; when it fails for any other column the frame has
    already been converted: timestamps parsed, [pickup_hour] added. *)
Theorem failed_call_leaves_converted_frame (b : Bounds) (df : DataFrame) (c : string) :
  first_missing df = Some c ->
  (c = "pickup_datetime" -> fst (clean b df) = df)
  /\ (c <> "pickup_datetime" -> fst (clean b df) = converted_frame df).
Proof.
  intros H.
  assert (E : fst (clean b df)
              = if String.eqb c "pickup_datetime" then df else converted_frame df).
  { unfold clean, clean_uber_data, bind.
    rewrite (stage_one_fails b df c H). reflexivity. }
  rewrite E. split; intros Hc.
  - subst c. now rewrite String.eqb_refl.
  - apply String.eqb_neq in Hc. now rewrite Hc.
Qed.

(** X14: a call returns exactly when the frame has the seven columns, at
    least one row passes the six first masks, and the library accepts the
    two points of every row that passes them. *)
Theorem call_returns_exactly_when (b : Bounds) (df : DataFrame) :
  (exists df' cleaned dropped, clean b df = (df', Return (cleaned, dropped)))
  <-> has_required df = true
      /\ survivors b df <> []
      /\ forallb accepted (survivors b df) = true.
Proof.
  split.
  - intros (df' & cleaned & dropped & E).
    apply clean_returns in E. tauto.
  - intros (H & Hne & Hacc). eexists _, _, _. apply clean_run; assumption.
Qed.

(** X15: on a frame with the seven columns of which no row passes the six
    first masks (a frame without rows among them) the call raises
    [ValueError] at the assignment of line 71, the caller's frame already
    converted. *)
Theorem no_survivor_raises (b : Bounds) (df : DataFrame) :
  has_required df = true ->
  survivors b df = [] ->
  clean b df = (converted_frame df, Raise (ValueError FrameForColumn)).
Proof.
  intros H He. unfold clean, clean_uber_data, bind.
  rewrite stage_one_run by exact H. unfold lift. cbn [fst snd rows converted_frame].
  rewrite survivors_converted, He. reflexivity.
Qed.

(** X16: when the library refuses a row that passed the six first masks, the
    call raises the [ValueError] of the first such row, in the order of
    the frame; the rows before it have been measured for nothing. *)
Theorem first_refused_row_raises (b : Bounds) (df : DataFrame) (r : Row) :
  has_required df = true ->
  find (fun x => negb (accepted x)) (survivors b df) = Some r ->
  In r (rows df)
  /\ survives b r = true
  /\ exists why,
       refusal r = Some why
       /\ clean b df = (converted_frame df, Raise (ValueError why)).
Proof.
  intros H F.
  pose proof (find_some _ _ F) as [Hin _].
  apply filter_In in Hin. destruct Hin as [Hin Hs].
  split; [ exact Hin | ]. split; [ exact Hs | ].
  apply clean_first_refusal; assumption.
Qed.

(** *** The rows of the two results *)

(** X17: the two results of a call that returns hold the input rows whose
    combined mask is not [<NA>], each of them once: their sizes and the
    number of rows with an [<NA>] mask add up to the size of the input;
    and when the index labels are distinct a kept row is once in the
    cleaned set and not in the dropped one, a row flagged by any number
    of masks is once in the dropped set and not in the cleaned one, and a
    row with an [<NA>] mask is in neither. *)
Theorem decided_rows_are_partitioned (b : Bounds) (df df' cleaned dropped : DataFrame) :
  clean b df = (df', Return (cleaned, dropped)) ->
  (List.length (rows cleaned) + List.length (rows dropped)
   + List.length (filter (undecided parse_datetime b) (rows df)))%nat
  = List.length (rows df)
  /\ Permutation (map passthrough (rows cleaned ++ rows dropped))
                 (map passthrough
                      (filter (fun r => negb (undecided parse_datetime b r)) (rows df)))
  /\ (NoDup (map label (rows df)) ->
      forall r, In r (rows df) ->
        (kept b r = true ->
         count_occ Z.eq_dec (map label (rows cleaned)) (label r) = 1%nat
         /\ count_occ Z.eq_dec (map label (rows dropped)) (label r) = 0%nat)
        /\ (fails_first b r || (survives b r && fails_second r) = true ->
            count_occ Z.eq_dec (map label (rows cleaned)) (label r) = 0%nat
            /\ count_occ Z.eq_dec (map label (rows dropped)) (label r) = 1%nat)
        /\ (undecided parse_datetime b r = true ->
            count_occ Z.eq_dec (map label (rows cleaned)) (label r) = 0%nat
            /\ count_occ Z.eq_dec (map label (rows dropped)) (label r) = 0%nat)).
Proof.
  intros E. apply clean_returns in E. destruct E as (_ & _ & _ & _ & -> & ->).
  cbn [rows].
  pose proof (outputs_permute_decided b df) as P.
  split; [ | split; [ exact P | ] ].
  - rewrite <- length_app.
    rewrite <- (length_map passthrough (cleaned_rows b df ++ dropped_rows b df)).
    rewrite (Permutation_length P), length_map.
    rewrite Nat.add_comm. apply filter_count.
  - intros ND r Hr.
    rewrite labels_of_cleaned, labels_of_dropped, count_occ_app.
    rewrite !(count_filter_labels _ _ r ND Hr).
    unfold kept.
    pose proof (verdict_cases b r) as V.
    destruct (fails_first b r) eqn:F.
    + rewrite (fails_not_survives b r F) in *. cbn [andb orb] in *.
      apply eq_sym, negb_true_iff in V. rewrite V.
      repeat split; intros; try discriminate; reflexivity.
    + destruct (survives b r) eqn:S; cbn [andb orb negb] in *.
      * apply eq_sym, negb_true_iff in V. rewrite V.
        destruct (fails_second r); cbn [negb];
          repeat split; intros; try discriminate; reflexivity.
      * apply eq_sym, negb_false_iff in V. rewrite V.
        repeat split; intros; try discriminate; reflexivity.
Qed.

(** X3: nothing is dropped without a reason: every row of the dropped set
    of a call that returns is flagged by the combined mask of the six
    first predicates, or passes it and has the distance of its own two
    points, a distance that is not above 0. *)
Theorem dropped_rows_fail_a_mask (b : Bounds) (df df' cleaned dropped : DataFrame) :
  clean b df = (df', Return (cleaned, dropped)) ->
  Forall (fun r =>
            initial_combined b r = Some true
            \/ (initial_combined b r = Some false
                /\ trip_distance geodesic_miles r = Return (distance_miles r)
                /\ PrimFloat.leb (distance_miles r) 0%float = true))
         (rows dropped).
Proof.
  intros E. apply clean_returns in E. destruct E as (_ & _ & Hacc & _ & _ & ->).
  cbn [rows]. apply Forall_forall. intros x Hx. unfold dropped_rows in Hx.
  rewrite in_app_iff, !in_map_iff in Hx.
  destruct Hx as [(r & <- & Hr) | (r & <- & Hr)];
    apply filter_In in Hr; destruct Hr as [Hin Hr].
  - left. rewrite combined_rejected. apply fails_first_spec, Hr.
  - right. apply andb_true_iff in Hr. destruct Hr as [Hs Hd].
    rewrite combined_delivered.
    split; [ apply survives_spec, Hs | ].
    split; [ apply (survivor_measured b df); assumption | exact Hd ].
Qed.

(** X4: the seventh predicate: in a call that returns, an input row that
    passes the six first masks is delivered with the distance that the
    library gives for its own two points; it goes to the dropped set when
    that distance is [<= 0], and to the cleaned set otherwise. *)
Theorem distance_decides_survivors (b : Bounds) (df df' cleaned dropped : DataFrame)
        (r : Row) :
  clean b df = (df', Return (cleaned, dropped)) ->
  In r (rows df) ->
  survives b r = true ->
  trip_distance geodesic_miles r = Return (distance_miles (delivered r))
  /\ (PrimFloat.leb (distance_miles (delivered r)) 0%float = true ->
      In (delivered r) (rows dropped) /\ ~ In (delivered r) (rows cleaned))
  /\ (PrimFloat.leb (distance_miles (delivered r)) 0%float = false ->
      In (delivered r) (rows cleaned) /\ ~ In (delivered r) (rows dropped)).
Proof.
  intros E Hr Hs. apply clean_returns in E.
  destruct E as (_ & _ & Hacc & _ & -> & ->). cbn [rows].
  split; [ exact (survivor_measured b df r Hacc Hr Hs) | ].
  split; intros Hd.
  - apply fate_second; assumption.
  - apply fate_kept; [ exact Hr | ].
    unfold kept. rewrite Hs. unfold fails_second, invalid_distance. now rewrite Hd.
Qed.

(** X5: rows dropped by the first six masks never get a computed distance:
    the dropped set of a call that returns holds such a row with the
    [distance_miles] it came with when the input had that column, and
    with NaN when it had not. *)
Theorem first_drops_keep_no_distance (b : Bounds) (df df' cleaned dropped : DataFrame)
        (r : Row) :
  clean b df = (df', Return (cleaned, dropped)) ->
  In r (rows df) ->
  fails_first b r = true ->
  exists x,
    In x (rows dropped)
    /\ without_distance x = without_distance (converted r)
    /\ (has_column "distance_miles" df = true ->
        distance_miles x = distance_miles r)
    /\ (has_column "distance_miles" df = false ->
        PrimFloat.is_nan (distance_miles x) = true).
Proof.
  intros E Hr Hf. apply clean_returns in E.
  destruct E as (_ & _ & _ & _ & _ & ->). cbn [rows].
  exists (rejected df r).
  split; [ now apply fate_first | ].
  split; [ apply without_distance_rejected | ].
  unfold rejected. split; intros ->; reflexivity.
Qed.

(** X19: values that are not valid are a reason to drop the row: in a call
    that returns, a row whose timestamp does not parse, with a coordinate
    that is NaN or outside the bounds, with a fare that is not above 0,
    or with a passenger count that is not above 0 or is above 10, is in
    the dropped set and not in the cleaned one, whatever its other values
    are. *)
Theorem invalid_values_are_dropped (b : Bounds) (df df' cleaned dropped : DataFrame)
        (r : Row) :
  clean b df = (df', Return (cleaned, dropped)) ->
  In r (rows df) ->
  to_datetime parse_datetime (pickup_datetime r) = NaT
  \/ nan_coordinates r = true
  \/ out_of_range b r = true
  \/ invalid_fare r = Some true
  \/ zero_passenger r = Some true
  \/ high_passenger_count r = Some true ->
  In (rejected df r) (rows dropped) /\ ~ In (delivered r) (rows cleaned).
Proof.
  intros E Hr Hbad. apply clean_returns in E.
  destruct E as (_ & _ & _ & _ & -> & ->). cbn [rows].
  apply fate_first; [ exact Hr | ].
  apply fails_first_spec, initial_combined_true.
  destruct Hbad as [T | [N | [O | [F | [Z0 | Z1]]]]].
  - right. right. right. right. left.
    unfold invalid_datetime, converted.
    cbn [pickup_datetime set_pickup_hour set_pickup_datetime].
    rewrite T. reflexivity.
  - right. right. left. exact N.
  - left. exact O.
  - right. left. exact F.
  - right. right. right. left. exact Z0.
  - right. right. right. right. right. exact Z1.
Qed.

(** *** The columns of the results *)

(** X6: the two results of a call that returns have the same columns: those
    of the input in their order, then [pickup_hour] and [distance_miles],
    each added at the end unless the input had it already. *)
Theorem results_share_columns (b : Bounds) (df df' cleaned dropped : DataFrame) :
  clean b df = (df', Return (cleaned, dropped)) ->
  columns cleaned = columns dropped
  /\ columns cleaned
     = add_column "distance_miles" (add_column "pickup_hour" (columns df))
  /\ (has_column "pickup_hour" df = false ->
      has_column "distance_miles" df = false ->
      columns cleaned = columns df ++ [ "pickup_hour"; "distance_miles" ])
  /\ (forall c, has_column c df = true -> has_column c cleaned = true).
Proof.
  intros E. apply clean_returns in E. destruct E as (_ & _ & _ & _ & -> & ->).
  cbn [columns converted_frame].
  split; [ reflexivity | ]. split; [ reflexivity | ]. split.
  - unfold has_column. intros Hh Hd. unfold add_column at 2. rewrite Hh.
    unfold add_column. rewrite existsb_app, Hd. cbn [existsb].
    replace ("distance_miles" =? "pickup_hour")%string with false by reflexivity.
    cbn [orb]. rewrite <- app_assoc. reflexivity.
  - unfold has_column. cbn [columns]. intros c Hc.
    rewrite !has_column_added, Hc. reflexivity.
Qed.

(** *** The derived columns *)

(** X7: every row of the cleaned set of a call that returns carries a
    timestamp, the hour of the day of that timestamp (0 to 23), and the
    distance that the library gives for its own two points; what the
    input had in [pickup_hour] and [distance_miles] is overwritten. *)
Theorem cleaned_rows_derived_columns (b : Bounds) (df df' cleaned dropped : DataFrame) :
  clean b df = (df', Return (cleaned, dropped)) ->
  Forall (fun r =>
            (exists ns,
                pickup_datetime r = Timestamp ns
                /\ pickup_hour r = Some ((ns / nanos_per_hour) mod 24)
                /\ 0 <= (ns / nanos_per_hour) mod 24 < 24)
            /\ trip_distance geodesic_miles r = Return (distance_miles r))
         (rows cleaned).
Proof.
  intros E. apply clean_returns in E. destruct E as (_ & _ & Hacc & _ & -> & _).
  cbn [rows]. apply Forall_forall. intros x Hx.
  destruct (cleaned_row_origin b df x Hx) as (r & Hr & -> & Hs & _).
  pose proof (proj1 (survives_spec b r) Hs) as Hi.
  apply initial_combined_false in Hi.
  destruct Hi as (_ & _ & _ & _ & Ht & _).
  split; [ | apply (survivor_measured b df); assumption ].
  revert Ht. unfold invalid_datetime, delivered, measured, converted.
  cbn [pickup_datetime pickup_hour set_distance_miles set_pickup_hour set_pickup_datetime].
  destruct (to_datetime parse_datetime (pickup_datetime r)) as [ str | ns | ] eqn:E;
    cbn [isnat dt_hour]; intros Ht; try discriminate.
  - exfalso. revert E. destruct (pickup_datetime r) as [ str' | ns' | ];
      cbn [to_datetime]; try destruct (parse_datetime str'); discriminate.
  - exists ns. split; [ reflexivity | ]. split; [ reflexivity | apply hour_in_day ].
Qed.

(** X8: once [pickup_datetime] has been read no raw string is left in the
    caller's frame, whether the call returns or raises later: every
    [pickup_datetime] is a timestamp or NaT, and [pickup_hour] is the hour
    of the timestamp, missing exactly where the timestamp is. *)
Theorem caller_frame_holds_timestamps (b : Bounds) (df : DataFrame) :
  has_column "pickup_datetime" df = true ->
  Forall (fun r =>
            (forall str, pickup_datetime r <> Raw str)
            /\ pickup_hour r = dt_hour (pickup_datetime r)
            /\ (pickup_hour r = None <-> pickup_datetime r = NaT))
         (rows (fst (clean b df))).
Proof.
  intros H. rewrite (caller_frame_after b df H). cbn [rows converted_frame].
  apply Forall_forall. intros x Hx.
  apply in_map_iff in Hx. destruct Hx as (r & <- & _).
  unfold converted.
  cbn [pickup_datetime pickup_hour set_pickup_hour set_pickup_datetime].
  destruct (pickup_datetime r) as [ str' | ns' | ];
    cbn [to_datetime]; try destruct (parse_datetime str'); cbn [dt_hour];
    repeat split; intros; congruence.
Qed.

(** *** The bounding box *)

(** X9: with a maximum below its minimum on either axis the first six masks
    flag every row: the frame left for the distance step has no rows, and
    the first part of the dropped set is the whole converted frame. *)
Theorem inverted_box_leaves_no_row (b : Bounds) (df : DataFrame) :
  has_required df = true ->
  box_inverted b = true ->
  exists df' dropped df_cleaned,
    stage_one (long_min b) (long_max b) (lat_min b) (lat_max b) df
    = (df', Return (dropped, df_cleaned))
    /\ rows df_cleaned = []
    /\ rows dropped = map converted (rows df).
Proof.
  intros H Hb. rewrite (stage_one_run b df H).
  eexists _, _, _. split; [ reflexivity | ]. cbn [rows converted_frame]. split.
  - apply filter_none. intros x _. now rewrite inverted_box_flags.
  - apply filter_all. intros x _. now rewrite inverted_box_flags.
Qed.

Lemma kept_wider (b b' : Bounds) (r : Row) :
  box_inside b b' = true -> kept b r = true -> kept b' r = true.
Proof.
  unfold kept. rewrite !andb_true_iff.
  intros Hb [Hs Hd]. split; [ | exact Hd ].
  apply survives_spec. apply survives_spec in Hs.
  apply initial_combined_false in Hs. apply initial_combined_false.
  destruct Hs as (Ho & rest). split; [ | exact rest ].
  exact (range_wider b b' _ Hb Ho).
Qed.

(** X10: widening the box never loses a row: when every bound of a second box
    is at least as far out as that of the first and both calls return,
    each row the first call keeps is kept by the second, as the same
    row. *)
Theorem wider_box_keeps_more (b b' : Bounds)
        (df df1 cleaned dropped df2 cleaned' dropped' : DataFrame) :
  box_inside b b' = true ->
  clean b df = (df1, Return (cleaned, dropped)) ->
  clean b' df = (df2, Return (cleaned', dropped')) ->
  incl (rows cleaned) (rows cleaned')
  /\ (List.length (rows cleaned) <= List.length (rows cleaned'))%nat.
Proof.
  intros Hb E E'.
  apply clean_returns in E. destruct E as (_ & _ & _ & _ & -> & _).
  apply clean_returns in E'. destruct E' as (_ & _ & _ & _ & -> & _).
  cbn [rows]. unfold cleaned_rows. split.
  - intros x Hx. apply in_map_iff in Hx. destruct Hx as (r & <- & Hr).
    apply filter_In in Hr. destruct Hr as [Hr Hk].
    apply in_map, filter_In. split; [ exact Hr | ].
    exact (kept_wider b b' r Hb Hk).
  - rewrite !length_map. apply filter_shorter. intros x. apply kept_wider, Hb.
Qed.

(** X11: without bounds (the four of them NaN) the range mask flags nothing:
    in a call that returns, a row is kept wherever its two points lie
    when the other predicates pass. *)
Theorem unbounded_box_keeps_any_place (b : Bounds) (df df' cleaned dropped : DataFrame)
        (r : Row) :
  clean b df = (df', Return (cleaned, dropped)) ->
  box_unbounded b = true ->
  In r (rows df) ->
  passes_except_range parse_datetime geodesic_miles r = true ->
  out_of_range b r = false
  /\ In (delivered r) (rows cleaned)
  /\ ~ In (delivered r) (rows dropped).
Proof.
  intros E Hb Hr Hp. apply clean_returns in E.
  destruct E as (_ & _ & _ & _ & -> & ->). cbn [rows].
  pose proof (unbounded_range b r Hb) as O.
  split; [ exact O | ].
  apply fate_kept; [ exact Hr | ].
  apply kept_except_range; assumption.
Qed.

(** *** Rows that meet the seven conditions *)

Lemma valid_row_is_kept (b : Bounds) (r : Row) :
  spec_valid b (delivered r) = true -> kept b r = true.
Proof.
  unfold spec_valid. rewrite !andb_true_iff.
  intros [[[[[Ht Hp] Hw] Hf] Hc] Hd].
  unfold kept. rewrite andb_true_iff, negb_true_iff. split.
  - apply survives_spec, initial_combined_false.
    split.
    { unfold coordinates_within in Hw. rewrite !andb_true_iff in Hw.
      destruct Hw as [[[W1 W2] W3] W4].
      apply unflagged_range; apply within_unflagged; assumption. }
    split.
    { change (fare_amount (delivered r)) with (fare_amount r) in Hf.
      unfold invalid_fare.
      change (fare_amount (converted r)) with (fare_amount r).
      destruct (fare_amount r) as [ x | ]; cbn [cell_positive cell_le] in *;
        [ | discriminate ].
      now rewrite (FloatOrder.ltb_not_leb _ _ Hf). }
    split.
    { unfold coordinates_present, is_number in Hp.
      rewrite !andb_true_iff, !negb_true_iff in Hp.
      destruct Hp as [[[P1 P2] P3] P4]. unfold nan_coordinates.
      change (PrimFloat.is_nan (pickup_longitude r) = false) in P1.
      change (PrimFloat.is_nan (pickup_latitude r) = false) in P2.
      change (PrimFloat.is_nan (dropoff_longitude r) = false) in P3.
      change (PrimFloat.is_nan (dropoff_latitude r) = false) in P4.
      change (PrimFloat.is_nan (pickup_longitude r)
              || PrimFloat.is_nan (pickup_latitude r)
              || PrimFloat.is_nan (dropoff_longitude r)
              || PrimFloat.is_nan (dropoff_latitude r) = false).
      now rewrite P1, P2, P3, P4. }
    change (passenger_count (delivered r)) with (passenger_count r) in Hc.
    unfold zero_passenger, high_passenger_count.
    change (passenger_count (converted r)) with (passenger_count r).
    destruct (passenger_count r) as [ x | ]; cbn [cell_within cell_le cell_gt] in *;
      [ | discriminate ].
    unfold within in Hc. apply andb_true_iff in Hc. destruct Hc as [C1 C10].
    split.
    { destruct (PrimFloat.leb x 0) eqn:E; [ | reflexivity ].
      pose proof (FloatOrder.leb_trans _ _ _ C1 E) as Bad.
      vm_compute in Bad. discriminate. }
    split.
    { revert Ht. unfold valid_timestamp, invalid_datetime.
      change (pickup_datetime (delivered r)) with (pickup_datetime (converted r)).
      destruct (pickup_datetime (converted r)); cbn [isnat]; congruence. }
    now rewrite (FloatOrder.leb_not_ltb _ _ C10).
  - apply FloatOrder.ltb_not_leb, Hd.
Qed.

(** X12: no row that meets the seven conditions of the specification is
    dropped: in a call that returns, an input row that, once converted
    and measured, has a timestamp, four coordinates within the closed
    box, a positive fare, a passenger count from 1 to 10 and a positive
    distance, is in the cleaned set and not in the dropped one.  In
    particular the bounds themselves are inside the box. *)
Theorem valid_rows_are_kept (b : Bounds) (df df' cleaned dropped : DataFrame) (r : Row) :
  clean b df = (df', Return (cleaned, dropped)) ->
  In r (rows df) ->
  spec_valid b (delivered r) = true ->
  In (delivered r) (rows cleaned)
  /\ ~ In (delivered r) (rows dropped).
Proof.
  intros E Hr Hv. apply clean_returns in E.
  destruct E as (_ & _ & _ & _ & -> & ->). cbn [rows].
  apply fate_kept; [ exact Hr | apply valid_row_is_kept, Hv ].
Qed.

(** *** Calling again *)

(** X13: the conversion in place does not change what a call returns: calling
    again with the same bounds on the frame that a call that returned has
    left returns the same two results and leaves the frame as it is. *)
Theorem second_call_on_same_frame (b : Bounds) (df df' cleaned dropped : DataFrame) :
  clean b df = (df', Return (cleaned, dropped)) ->
  clean b df' = (df', Return (cleaned, dropped)).
Proof.
  intros E. apply clean_returns in E.
  destruct E as (H & Hne & Hacc & -> & -> & ->).
  assert (H' : has_required (converted_frame df) = true).
  { unfold converted_frame. apply (has_required_more _ _ (rows df)).
    now destruct df. }
  rewrite (clean_run b _ H').
  - rewrite converted_frame_twice, cleaned_rows_converted, dropped_rows_converted.
    reflexivity.
  - rewrite survivors_of_converted. destruct (survivors b df); [ congruence | discriminate ].
  - rewrite survivors_of_converted. now rewrite accepted_converted.
Qed.

(** X18: a second call on a cleaned set that has rows, with the same bounds,
    returns that set as it is, leaves it as it is, and drops nothing; on
    a cleaned set without rows it raises [ValueError]. *)
Theorem second_call_on_cleaned (b : Bounds) (df df' cleaned dropped : DataFrame) :
  clean b df = (df', Return (cleaned, dropped)) ->
  (rows cleaned <> [] ->
   exists dropped',
     clean b cleaned = (cleaned, Return (cleaned, dropped'))
     /\ rows dropped' = [])
  /\ (rows cleaned = [] ->
      clean b cleaned = (cleaned, Raise (ValueError FrameForColumn))).
Proof.
  intros E. apply clean_returns in E.
  destruct E as (H & _ & Hacc & _ & -> & _).
  destruct (cleaned_frame_again b df H Hacc) as (Hreq & Hframe & Hsurv & Hok & Hc & Hd).
  set (cleaned := mkFrame (add_column "distance_miles" (columns (converted_frame df)))
                          (cleaned_rows b df)) in *.
  assert (Hdist : existsb (String.eqb "distance_miles") (columns cleaned) = true).
  { unfold cleaned. cbn [columns].
    rewrite has_column_added, String.eqb_refl. apply orb_true_r. }
  split.
  - intros Hne.
    rewrite (clean_run b cleaned Hreq); rewrite ?Hsurv; try assumption.
    rewrite Hframe, Hc, Hd, (add_column_present _ _ Hdist).
    eexists. split; [ reflexivity | reflexivity ].
  - intros He.
    rewrite (clean_without_survivors b cleaned Hreq) by (rewrite Hsurv; exact He).
    now rewrite Hframe.
Qed.

End Run.

(* ================================================================= *)
(** ** The distance step *)

Lemma stage_two_agree (g1 g2 : float * float -> float * float -> float)
      (D S : DataFrame) :
  (forall r, In r (rows S) ->
     g1 (pickup_point r) (dropoff_point r) = g2 (pickup_point r) (dropoff_point r)) ->
  stage_two g1 D S = stage_two g2 D S.
Proof.
  intros H. unfold stage_two, apply_rows.
  rewrite (each_row_ext (trip_distance g1) (trip_distance g2)); [ reflexivity | ].
  intros r Hr. rewrite !trip_distance_outcome.
  destruct (refusal r); [ reflexivity | ]. f_equal. apply H, Hr.
Qed.

Lemma survivor_points_screened (parse_datetime : string -> option Z)
      (b : Bounds) (r : Row) :
  survives parse_datetime b r = true ->
  point_present (pickup_point r) = true
  /\ point_present (dropoff_point r) = true
  /\ point_unflagged b (pickup_point r) = true
  /\ point_unflagged b (dropoff_point r) = true
  /\ point_bounded b (pickup_point r) = true
  /\ point_bounded b (dropoff_point r) = true.
Proof.
  intros Hs. apply survives_spec, initial_combined_false in Hs.
  destruct Hs as (Ho & _ & Hn & _).
  change (out_of_range b r = false) in Ho.
  change (nan_coordinates r = false) in Hn.
  pose proof (survivor_present r Hn) as P.
  pose proof (survivor_unflagged b r Ho) as (U1 & U2 & U3 & U4).
  unfold coordinates_present in P. rewrite !andb_true_iff in P.
  destruct P as [[[P1 P2] P3] P4].
  unfold point_present, point_unflagged, point_bounded, pickup_point, dropoff_point.
  cbn [fst snd]. rewrite P1, P2, P3, P4, U1, U2, U3, U4.
  rewrite !unflagged_bounded by assumption.
  repeat split.
Qed.


(** X20: what a call does depends on the library only at points whose
    coordinates are numbers that the range mask does not flag: two
    distance functions that agree on every such pair of points give the
    same outcome on every frame. *)
Theorem outcome_rests_on_screened_points
        (parse_datetime : string -> option Z)
        (g1 g2 : float * float -> float * float -> float) (b : Bounds) :
  (forall p q,
     point_present p = true -> point_present q = true ->
     point_unflagged b p = true -> point_unflagged b q = true ->
     g1 p q = g2 p q) ->
  forall df, clean parse_datetime g1 b df = clean parse_datetime g2 b df.
Proof.
  intros H df. unfold clean, clean_uber_data, bind.
  destruct (first_missing df) as [ c | ] eqn:F.
  - rewrite (stage_one_fails parse_datetime b df c F). reflexivity.
  - apply first_missing_none in F.
    rewrite (stage_one_run parse_datetime b df F).
    unfold lift. cbn [fst snd]. f_equal.
    apply stage_two_agree. cbn [rows converted_frame].
    rewrite survivors_converted.
    intros x Hx. apply in_map_iff in Hx. destruct Hx as (r & <- & Hr).
    apply filter_In in Hr. destruct Hr as [_ Hs].
    destruct (survivor_points_screened parse_datetime b r Hs)
      as (P1 & P2 & U1 & U2 & _).
    exact (H _ _ P1 P2 U1 U2).
Qed.

(** C8, with the distance of the specification for the library's: in a
    call that returns, the distance of every cleaned row is the geodesic
    distance on the WGS-84 ellipsoid, in miles, between its pickup and
    its dropoff point, latitude first.  For the pair of the example under
    the bounds of New York the call returns the row in the cleaned set
    with a distance between 3.914 and 3.915 miles; the great circle gives
    another value for that pair, and so does the flat map. *)
Theorem distance_is_wgs84_geodesic (b : Bounds) (df df' cleaned dropped : DataFrame) :
  wgs84_clean b df = (df', Return (cleaned, dropped)) ->
  Forall (fun r =>
            distance_miles r
            = Wgs84.wgs84_miles (pickup_latitude r, pickup_longitude r)
                                (dropoff_latitude r, dropoff_longitude r))
         (rows cleaned)
  /\ pickup_point good_trip = nyc_pickup
  /\ dropoff_point good_trip = nyc_dropoff
  /\ wgs84_clean nyc pair_frame
     = (converted_frame iso_parse pair_frame,
        Return (mkFrame result_columns [ delivered iso_parse Wgs84.wgs84_miles good_trip ],
                mkFrame result_columns []))
  /\ distance_miles (delivered iso_parse Wgs84.wgs84_miles good_trip)
     = Wgs84.wgs84_miles nyc_pickup nyc_dropoff
  /\ within 3.914%float 3.915%float (Wgs84.wgs84_miles nyc_pickup nyc_dropoff) = true
  /\ PrimFloat.ltb (Wgs84.haversine_miles nyc_pickup nyc_dropoff)
                   (Wgs84.wgs84_miles nyc_pickup nyc_dropoff) = true
  /\ PrimFloat.ltb (planar_miles nyc_pickup nyc_dropoff)
                   (Wgs84.haversine_miles nyc_pickup nyc_dropoff) = true.
Proof.
  intros E. split.
  - unfold wgs84_clean in E.
    apply clean_returns in E. destruct E as (_ & _ & _ & _ & -> & _).
    cbn [rows]. apply Forall_forall. intros x Hx.
    apply (cleaned_row_origin iso_parse Wgs84.wgs84_miles) in Hx.
    destruct Hx as (r & _ & -> & _).
    unfold delivered, measured. cbn [distance_miles set_distance_miles].
    reflexivity.
  - split; [ reflexivity | ]. split; [ reflexivity | ].
    split; [ vm_compute; reflexivity | ].
    split; [ reflexivity | ].
    split; [ vm_compute; reflexivity | ].
    split; vm_compute; reflexivity.
Qed.

(* ================================================================= *)
(** ** Calls that do not do what the specification asks *)

(** C1: the two results do not always partition the input.  A row whose
    passenger count is [pd.NA] has a combined mask of [<NA>]: the call on
    a frame with a good row and such a row returns the good row in the
    cleaned set and nothing in the dropped set, two input rows for one
    row returned.  On a frame without rows, and on a frame whose rows are
    all flagged (as they are under bounds with the longitudes swapped),
    the call returns no result at all: it raises [ValueError] at the
    assignment of line 71. *)
Theorem rows_lost_from_both_results :
  has_required nullable_frame = true
  /\ map label (rows nullable_frame) = [0; 14]
  /\ undecided iso_parse nyc blank_trip = true
  /\ sample_clean nyc nullable_frame
     = (converted_frame iso_parse nullable_frame,
        Return (mkFrame result_columns [ delivered iso_parse planar_miles good_trip ],
                mkFrame result_columns []))
  /\ has_required no_rows_frame = true
  /\ sample_clean nyc no_rows_frame
     = (converted_frame iso_parse no_rows_frame, Raise (ValueError FrameForColumn))
  /\ has_required sample_frame = true
  /\ box_inverted swapped = true
  /\ sample_clean swapped sample_frame
     = (converted_frame iso_parse sample_frame, Raise (ValueError FrameForColumn)).
Proof.
  split; [ reflexivity | ]. split; [ reflexivity | ].
  split; [ vm_compute; reflexivity | ]. split; [ vm_compute; reflexivity | ].
  split; [ reflexivity | ]. split; [ vm_compute; reflexivity | ].
  split; [ reflexivity | ]. split; [ reflexivity | vm_compute; reflexivity ].
Qed.

(** C4: a second call does not always return the cleaned set.  The call on
    a frame whose one row has its dropoff where its pickup is returns a
    cleaned set without rows and that row in the dropped set; the second
    call, on that cleaned set with the same bounds, raises [ValueError]
    at the assignment of line 71. *)
Theorem second_call_on_empty_cleaned_raises :
  has_required standstill_frame = true
  /\ sample_clean nyc standstill_frame
     = (converted_frame iso_parse standstill_frame,
        Return (mkFrame result_columns [],
                mkFrame result_columns [ delivered iso_parse planar_miles still_trip ]))
  /\ pickup_point still_trip = dropoff_point still_trip
  /\ distance_miles (delivered iso_parse planar_miles still_trip) = 0%float
  /\ has_required (mkFrame result_columns []) = true
  /\ sample_clean nyc (mkFrame result_columns [])
     = (mkFrame result_columns [], Raise (ValueError FrameForColumn)).
Proof.
  split; [ reflexivity | ]. split; [ vm_compute; reflexivity | ].
  split; [ reflexivity | ]. split; [ vm_compute; reflexivity | ].
  split; [ reflexivity | vm_compute; reflexivity ].
Qed.

(** C6: a missing column is not the only way for a call to fail, and a
    value that is not valid does not always send its row to the dropped
    set.  A frame with the seven columns whose rows have a timestamp that
    does not parse, or a fare of 0, makes the call raise [ValueError] at
    line 71; a latitude of 95 under bounds that let it pass makes the
    library raise [ValueError] inside line 71.  Neither call returns a
    dropped set. *)
Theorem value_errors_besides_key_error :
  has_required hopeless_frame = true
  /\ map (fun r => to_datetime iso_parse (pickup_datetime r)) (rows hopeless_frame)
     = [ NaT; Timestamp 1431028326000000000 ]
  /\ map fare_amount (rows hopeless_frame) = [ Value 7.5%float; Value 0%float ]
  /\ sample_clean nyc hopeless_frame
     = (converted_frame iso_parse hopeless_frame, Raise (ValueError FrameForColumn))
  /\ has_required polar_frame = true
  /\ map pickup_latitude (rows polar_frame) = [ 40.7128%float; 95%float ]
  /\ out_of_range loose polar_trip = false
  /\ sample_clean loose polar_frame
     = (converted_frame iso_parse polar_frame, Raise (ValueError LatitudeOutOfRange)).
Proof.
  split; [ reflexivity | ]. split; [ vm_compute; reflexivity | ].
  split; [ reflexivity | ]. split; [ vm_compute; reflexivity | ].
  split; [ reflexivity | ]. split; [ reflexivity | ].
  split; vm_compute; reflexivity.
Qed.

(* ================================================================= *)
(** ** The theorems at work on the sample frames *)

Ltac run := vm_compute; reflexivity.
Ltac member := simpl; tauto.

Lemma sample_run :
  sample_clean nyc sample_frame = (sample_after, Return (sample_cleaned, sample_dropped)).
Proof. run. Defined.

Lemma clean_preserves_order_sample :
  sample_clean nyc sample_frame = (sample_after, Return (sample_cleaned, sample_dropped))
  /\ map label (rows sample_frame) = [0; 1; 2; 3; 4; 5; 6; 7; 8; 9; 10]
  /\ map label (rows sample_cleaned) = [0; 2; 3; 4; 5]
  /\ map label (rows sample_dropped) = [1; 6; 7; 8; 10] ++ [9].
Proof.
  split; [ run | ]. split; [ reflexivity | ].
  destruct (clean_preserves_order iso_parse planar_miles nyc sample_frame
              sample_after sample_cleaned sample_dropped sample_run)
    as (_ & _ & Lc & Ld).
  split.
  - rewrite Lc. run.
  - rewrite Ld. run.
Defined.

(** C3 as the specification states it fails: after the call the caller's
    frame has the column [pickup_hour] it did not have, and timestamps
    where it had strings. *)
Lemma caller_frame_changed :
  sample_clean nyc sample_frame = (sample_after, Return (sample_cleaned, sample_dropped))
  /\ has_column "pickup_hour" sample_frame = false
  /\ has_column "pickup_hour" sample_after = true
  /\ map pickup_datetime (rows sample_frame) <> map pickup_datetime (rows sample_after)
  /\ sample_after <> sample_frame.
Proof.
  split; [ run | ]. split; [ reflexivity | ]. split; [ reflexivity | ]. split.
  - vm_compute. discriminate.
  - intros E. apply (f_equal columns) in E. vm_compute in E. discriminate.
Qed.

Lemma clean_converts_caller_frame_sample :
  sample_clean nyc sample_frame = (sample_after, Return (sample_cleaned, sample_dropped))
  /\ columns sample_after = add_column "pickup_hour" (columns sample_frame)
  /\ rows sample_after = map (converted iso_parse) (rows sample_frame)
  /\ map passthrough (rows sample_after) = map passthrough (rows sample_frame)
  /\ map distance_miles (rows sample_after) = map distance_miles (rows sample_frame)
  /\ has_column "distance_miles" sample_after = has_column "distance_miles" sample_frame
  /\ has_column "distance_miles" sample_cleaned = true
  /\ has_column "distance_miles" sample_dropped = true.
Proof.
  split; [ run | ].
  apply (clean_converts_caller_frame iso_parse planar_miles nyc sample_frame
           sample_after sample_cleaned sample_dropped).
  run.
Defined.

(** C2 as the specification states it fails: the cleaned set of the
    sample frame holds a row without a fare, a row with half a passenger
    and a row without a passenger count, none of which meets the seven
    conditions; and under bounds that are NaN the cleaned set holds a row
    that is within no bounds. *)
Lemma cleaned_row_fails_conditions :
  sample_clean nyc sample_frame = (sample_after, Return (sample_cleaned, sample_dropped))
  /\ In (delivered iso_parse planar_miles unpriced_trip) (rows sample_cleaned)
  /\ cell_positive (fare_amount (delivered iso_parse planar_miles unpriced_trip)) = false
  /\ spec_valid nyc (delivered iso_parse planar_miles unpriced_trip) = false
  /\ In (delivered iso_parse planar_miles half_trip) (rows sample_cleaned)
  /\ cell_within 1%float 10%float
                 (passenger_count (delivered iso_parse planar_miles half_trip)) = false
  /\ spec_valid nyc (delivered iso_parse planar_miles half_trip) = false
  /\ In (delivered iso_parse planar_miles uncounted_trip) (rows sample_cleaned)
  /\ spec_valid nyc (delivered iso_parse planar_miles uncounted_trip) = false
  /\ In (delivered iso_parse planar_miles good_trip)
        (rows (cleaned_of (sample_clean nowhere pair_frame)))
  /\ coordinates_within nowhere (delivered iso_parse planar_miles good_trip) = false
  /\ spec_valid nowhere (delivered iso_parse planar_miles good_trip) = false.
Proof.
  split; [ run | ].
  vm_compute. intuition reflexivity.
Qed.

Lemma cleaned_rows_pass_the_masks_sample :
  sample_clean nyc sample_frame = (sample_after, Return (sample_cleaned, sample_dropped))
  /\ measures_numbers iso_parse planar_miles nyc sample_frame = true
  /\ map label (rows sample_cleaned) = [0; 2; 3; 4; 5]
  /\ Forall (fun r =>
               valid_timestamp r = true
               /\ coordinates_present r = true
               /\ coordinates_bounded nyc r = true
               /\ fare_let_through (fare_amount r) = true
               /\ count_let_through (passenger_count r) = true
               /\ is_positive (distance_miles r) = true)
            (rows sample_cleaned).
Proof.
  split; [ run | ]. split; [ run | ]. split; [ run | ].
  apply (cleaned_rows_pass_the_masks iso_parse planar_miles nyc sample_frame
           sample_after sample_cleaned sample_dropped); run.
Defined.

Lemma fare_and_count_boundaries_sample :
  sample_clean nyc sample_frame = (sample_after, Return (sample_cleaned, sample_dropped))
  /\ In (rejected iso_parse sample_frame free_trip) (rows sample_dropped)
  /\ In (rejected iso_parse sample_frame empty_trip) (rows sample_dropped)
  /\ In (rejected iso_parse sample_frame crowded_trip) (rows sample_dropped)
  /\ In (delivered iso_parse planar_miles cent_trip) (rows sample_cleaned)
  /\ ~ In (delivered iso_parse planar_miles cent_trip) (rows sample_dropped).
Proof.
  split; [ run | ].
  assert (B : forall r, In r (rows sample_frame) -> _)
    by exact (fun r => fare_and_count_boundaries iso_parse planar_miles nyc sample_frame
                         sample_after sample_cleaned sample_dropped r sample_run).
  destruct (B free_trip) as (F0 & _); [ member | ].
  destruct (B empty_trip) as (_ & _ & C0 & _); [ member | ].
  destruct (B crowded_trip) as (_ & _ & _ & _ & C11); [ member | ].
  destruct (B cent_trip) as (_ & F1 & _ & C10 & _); [ member | ].
  split; [ apply F0; reflexivity | ].
  split; [ apply C0; reflexivity | ].
  split; [ apply C11; reflexivity | ].
  split; [ apply C10; reflexivity | apply F1; reflexivity ].
Defined.

Lemma missing_fare_or_count_is_kept_sample :
  sample_clean nyc sample_frame = (sample_after, Return (sample_cleaned, sample_dropped))
  /\ invalid_fare unpriced_trip = Some false
  /\ In (delivered iso_parse planar_miles unpriced_trip) (rows sample_cleaned)
  /\ zero_passenger uncounted_trip = Some false
  /\ high_passenger_count uncounted_trip = Some false
  /\ In (delivered iso_parse planar_miles uncounted_trip) (rows sample_cleaned).
Proof.
  split; [ run | ].
  assert (B : forall r, In r (rows sample_frame) -> _)
    by exact (fun r => missing_fare_or_count_is_kept iso_parse planar_miles nyc
                         sample_frame sample_after sample_cleaned sample_dropped r
                         sample_run).
  destruct (B unpriced_trip) as (F & _); [ member | ].
  destruct (B uncounted_trip) as (_ & C); [ member | ].
  destruct (F eq_refl) as [F0 F1]. destruct (C eq_refl) as (C0 & C1 & C2).
  split; [ exact F0 | ].
  split; [ apply F1; reflexivity | ].
  split; [ exact C0 | ].
  split; [ exact C1 | apply C2; reflexivity ].
Defined.


(** C8 as the specification states it fails: the distance of the row of
    the example is not between 5.1 and 5.3 miles. *)
Lemma nyc_pair_not_five_miles :
  rows (cleaned_of (wgs84_clean nyc pair_frame))
  = [ delivered iso_parse Wgs84.wgs84_miles good_trip ]
  /\ pickup_point (delivered iso_parse Wgs84.wgs84_miles good_trip) = nyc_pickup
  /\ dropoff_point (delivered iso_parse Wgs84.wgs84_miles good_trip) = nyc_dropoff
  /\ within 5.1%float 5.3%float
            (distance_miles (delivered iso_parse Wgs84.wgs84_miles good_trip)) = false
  /\ PrimFloat.ltb (distance_miles (delivered iso_parse Wgs84.wgs84_miles good_trip))
                   4%float = true.
Proof.
  split; [ run | ]. split; [ reflexivity | ]. split; [ reflexivity | ].
  split; run.
Qed.

Lemma distance_is_wgs84_geodesic_sample :
  wgs84_clean nyc pair_frame
  = (left_by (wgs84_clean nyc pair_frame),
     Return (cleaned_of (wgs84_clean nyc pair_frame),
             dropped_of (wgs84_clean nyc pair_frame)))
  /\ Forall (fun r =>
               distance_miles r
               = Wgs84.wgs84_miles (pickup_latitude r, pickup_longitude r)
                                   (dropoff_latitude r, dropoff_longitude r))
            (rows (cleaned_of (wgs84_clean nyc pair_frame)))
  /\ within 3.914%float 3.915%float (Wgs84.wgs84_miles nyc_pickup nyc_dropoff) = true.
Proof.
  assert (E : wgs84_clean nyc pair_frame
              = (left_by (wgs84_clean nyc pair_frame),
                 Return (cleaned_of (wgs84_clean nyc pair_frame),
                         dropped_of (wgs84_clean nyc pair_frame)))) by run.
  split; [ exact E | ].
  destruct (distance_is_wgs84_geodesic nyc pair_frame _ _ _ E)
    as (F & _ & _ & _ & _ & W & _).
  split; [ exact F | exact W ].
Defined.

(* ================================================================= *)
(** ** The further properties at work on sample frames *)

Lemma edge_run :
  sample_clean nyc edge_frame = (edge_after, Return (edge_cleaned, edge_dropped)).
Proof. run. Defined.

Lemma key_error_names_first_missing_sample :
  first_missing headless_frame = Some "fare_amount"
  /\ exists df', sample_clean nyc headless_frame = (df', Raise (KeyError "fare_amount")).
Proof.
  split; [ reflexivity | ].
  apply (key_error_names_first_missing iso_parse planar_miles nyc headless_frame).
  reflexivity.
Defined.

Lemma failed_call_leaves_converted_frame_sample :
  first_missing undated_frame = Some "pickup_datetime"
  /\ fst (sample_clean nyc undated_frame) = undated_frame
  /\ first_missing headless_frame = Some "fare_amount"
  /\ fst (sample_clean nyc headless_frame) = converted_frame iso_parse headless_frame.
Proof.
  split; [ reflexivity | ]. split.
  - apply (proj1 (failed_call_leaves_converted_frame
                    iso_parse planar_miles nyc undated_frame "pickup_datetime" eq_refl)).
    reflexivity.
  - split; [ reflexivity | ].
    apply (proj2 (failed_call_leaves_converted_frame
                    iso_parse planar_miles nyc headless_frame "fare_amount" eq_refl)).
    discriminate.
Defined.

Lemma dropped_rows_fail_a_mask_sample :
  sample_clean nyc sample_frame = (sample_after, Return (sample_cleaned, sample_dropped))
  /\ map label (rows sample_dropped) = [1; 6; 7; 8; 10; 9]
  /\ Forall (fun r =>
               initial_combined nyc r = Some true
               \/ (initial_combined nyc r = Some false
                   /\ trip_distance planar_miles r = Return (distance_miles r)
                   /\ PrimFloat.leb (distance_miles r) 0%float = true))
            (rows sample_dropped).
Proof.
  split; [ run | ]. split; [ run | ].
  apply (dropped_rows_fail_a_mask iso_parse planar_miles nyc sample_frame
           sample_after sample_cleaned sample_dropped).
  run.
Defined.

Lemma distance_decides_survivors_sample :
  sample_clean nyc sample_frame = (sample_after, Return (sample_cleaned, sample_dropped))
  /\ In still_trip (rows sample_frame)
  /\ survives iso_parse nyc still_trip = true
  /\ trip_distance planar_miles still_trip = Return 0%float
  /\ In (delivered iso_parse planar_miles still_trip) (rows sample_dropped)
  /\ ~ In (delivered iso_parse planar_miles still_trip) (rows sample_cleaned).
Proof.
  split; [ run | ]. split; [ member | ]. split; [ run | ].
  destruct (distance_decides_survivors iso_parse planar_miles nyc sample_frame
              sample_after sample_cleaned sample_dropped still_trip sample_run)
    as (T & D & _); [ member | run | ].
  split; [ rewrite T; run | ].
  apply D. run.
Defined.

Lemma first_drops_keep_no_distance_sample :
  sample_clean nyc sample_frame = (sample_after, Return (sample_cleaned, sample_dropped))
  /\ In free_trip (rows sample_frame)
  /\ fails_first iso_parse nyc free_trip = true
  /\ exists x,
       In x (rows sample_dropped)
       /\ without_distance x = without_distance (converted iso_parse free_trip)
       /\ PrimFloat.is_nan (distance_miles x) = true.
Proof.
  split; [ run | ]. split; [ member | ]. split; [ run | ].
  destruct (first_drops_keep_no_distance iso_parse planar_miles nyc sample_frame
              sample_after sample_cleaned sample_dropped free_trip sample_run)
    as (x & Hx & Hw & _ & Hn); [ member | run | ].
  exists x.
  split; [ exact Hx | ]. split; [ exact Hw | ].
  apply Hn. reflexivity.
Defined.

Lemma results_share_columns_sample :
  sample_clean nyc sample_frame = (sample_after, Return (sample_cleaned, sample_dropped))
  /\ columns sample_cleaned = columns sample_dropped
  /\ columns sample_cleaned = input_columns ++ [ "pickup_hour"; "distance_miles" ].
Proof.
  split; [ run | ].
  destruct (results_share_columns iso_parse planar_miles nyc sample_frame
              sample_after sample_cleaned sample_dropped sample_run)
    as (Hs & _ & Hc & _).
  split; [ exact Hs | ].
  apply Hc; reflexivity.
Defined.

Lemma cleaned_rows_derived_columns_sample :
  sample_clean nyc sample_frame = (sample_after, Return (sample_cleaned, sample_dropped))
  /\ map pickup_hour (rows sample_cleaned) = [Some 19; Some 19; Some 19; Some 19; Some 19]
  /\ Forall (fun r =>
               (exists ns,
                   pickup_datetime r = Timestamp ns
                   /\ pickup_hour r = Some ((ns / nanos_per_hour) mod 24)
                   /\ 0 <= (ns / nanos_per_hour) mod 24 < 24)
               /\ trip_distance planar_miles r = Return (distance_miles r))
            (rows sample_cleaned).
Proof.
  split; [ run | ]. split; [ run | ].
  apply (cleaned_rows_derived_columns iso_parse planar_miles nyc sample_frame
           sample_after sample_cleaned sample_dropped).
  run.
Defined.

Lemma caller_frame_holds_timestamps_sample :
  has_column "pickup_datetime" headless_frame = true
  /\ snd (sample_clean nyc headless_frame) = Raise (KeyError "fare_amount")
  /\ Forall (fun r =>
               (forall str, pickup_datetime r <> Raw str)
               /\ pickup_hour r = dt_hour (pickup_datetime r)
               /\ (pickup_hour r = None <-> pickup_datetime r = NaT))
            (rows (fst (sample_clean nyc headless_frame))).
Proof.
  split; [ reflexivity | ]. split; [ run | ].
  apply (caller_frame_holds_timestamps iso_parse planar_miles nyc headless_frame).
  reflexivity.
Defined.

Lemma inverted_box_leaves_no_row_sample :
  has_required sample_frame = true
  /\ box_inverted swapped = true
  /\ exists df' dropped df_cleaned,
       stage_one iso_parse (long_min swapped) (long_max swapped)
                 (lat_min swapped) (lat_max swapped) sample_frame
       = (df', Return (dropped, df_cleaned))
       /\ rows df_cleaned = []
       /\ rows dropped = map (converted iso_parse) (rows sample_frame).
Proof.
  split; [ reflexivity | ]. split; [ reflexivity | ].
  apply (inverted_box_leaves_no_row iso_parse swapped sample_frame); reflexivity.
Defined.

Lemma wider_box_keeps_more_sample :
  box_inside nyc north_east = true
  /\ sample_clean nyc edge_frame = (edge_after, Return (edge_cleaned, edge_dropped))
  /\ sample_clean north_east edge_frame
     = (left_by (sample_clean north_east edge_frame),
        Return (cleaned_of (sample_clean north_east edge_frame),
                dropped_of (sample_clean north_east edge_frame)))
  /\ incl (rows edge_cleaned) (rows (cleaned_of (sample_clean north_east edge_frame)))
  /\ (List.length (rows edge_cleaned)
      <= List.length (rows (cleaned_of (sample_clean north_east edge_frame))))%nat.
Proof.
  split; [ reflexivity | ]. split; [ run | ].
  assert (E : sample_clean north_east edge_frame
              = (left_by (sample_clean north_east edge_frame),
                 Return (cleaned_of (sample_clean north_east edge_frame),
                         dropped_of (sample_clean north_east edge_frame)))) by run.
  split; [ exact E | ].
  apply (wider_box_keeps_more iso_parse planar_miles nyc north_east edge_frame
           edge_after edge_cleaned edge_dropped _ _ _ eq_refl edge_run E).
Defined.

Lemma unbounded_box_keeps_any_place_sample :
  sample_clean nowhere edge_frame
  = (left_by (sample_clean nowhere edge_frame),
     Return (cleaned_of (sample_clean nowhere edge_frame),
             dropped_of (sample_clean nowhere edge_frame)))
  /\ box_unbounded nowhere = true
  /\ In far_trip (rows edge_frame)
  /\ passes_except_range iso_parse planar_miles far_trip = true
  /\ out_of_range nowhere far_trip = false
  /\ In (delivered iso_parse planar_miles far_trip)
        (rows (cleaned_of (sample_clean nowhere edge_frame)))
  /\ ~ In (delivered iso_parse planar_miles far_trip)
          (rows (dropped_of (sample_clean nowhere edge_frame))).
Proof.
  assert (E : sample_clean nowhere edge_frame
              = (left_by (sample_clean nowhere edge_frame),
                 Return (cleaned_of (sample_clean nowhere edge_frame),
                         dropped_of (sample_clean nowhere edge_frame)))) by run.
  split; [ exact E | ]. split; [ reflexivity | ].
  split; [ member | ]. split; [ run | ].
  apply (unbounded_box_keeps_any_place iso_parse planar_miles nowhere edge_frame
           _ _ _ far_trip E); [ reflexivity | member | run ].
Defined.

Lemma valid_rows_are_kept_sample :
  sample_clean nyc edge_frame = (edge_after, Return (edge_cleaned, edge_dropped))
  /\ In corner_trip (rows edge_frame)
  /\ spec_valid nyc (delivered iso_parse planar_miles corner_trip) = true
  /\ In (delivered iso_parse planar_miles corner_trip) (rows edge_cleaned)
  /\ ~ In (delivered iso_parse planar_miles corner_trip) (rows edge_dropped).
Proof.
  split; [ run | ]. split; [ member | ]. split; [ run | ].
  apply (valid_rows_are_kept iso_parse planar_miles nyc edge_frame
           edge_after edge_cleaned edge_dropped corner_trip edge_run);
    [ member | run ].
Defined.

Lemma second_call_on_same_frame_sample :
  sample_clean nyc sample_frame = (sample_after, Return (sample_cleaned, sample_dropped))
  /\ sample_clean nyc sample_after
     = (sample_after, Return (sample_cleaned, sample_dropped)).
Proof.
  split; [ run | ].
  apply (second_call_on_same_frame iso_parse planar_miles nyc sample_frame
           sample_after sample_cleaned sample_dropped).
  run.
Defined.

Lemma call_returns_exactly_when_sample :
  (has_required sample_frame = true
   /\ survivors iso_parse nyc sample_frame <> []
   /\ forallb accepted (survivors iso_parse nyc sample_frame) = true)
  /\ (exists df' cleaned dropped,
        sample_clean nyc sample_frame = (df', Return (cleaned, dropped)))
  /\ ~ (exists df' cleaned dropped,
          sample_clean nyc hopeless_frame = (df', Return (cleaned, dropped)))
  /\ ~ (exists df' cleaned dropped,
          sample_clean loose polar_frame = (df', Return (cleaned, dropped))).
Proof.
  assert (S : has_required sample_frame = true
              /\ survivors iso_parse nyc sample_frame <> []
              /\ forallb accepted (survivors iso_parse nyc sample_frame) = true).
  { split; [ reflexivity | ]. split; [ vm_compute; discriminate | run ]. }
  split; [ exact S | ]. split.
  - exact (proj2 (call_returns_exactly_when iso_parse planar_miles nyc sample_frame) S).
  - split; intros R.
    + apply (call_returns_exactly_when iso_parse planar_miles nyc hopeless_frame) in R.
      destruct R as (_ & R & _). apply R. run.
    + apply (call_returns_exactly_when iso_parse planar_miles loose polar_frame) in R.
      destruct R as (_ & _ & R). vm_compute in R. discriminate.
Defined.

Lemma no_survivor_raises_sample :
  has_required hopeless_frame = true
  /\ survivors iso_parse nyc hopeless_frame = []
  /\ sample_clean nyc hopeless_frame
     = (converted_frame iso_parse hopeless_frame, Raise (ValueError FrameForColumn))
  /\ sample_clean swapped sample_frame
     = (converted_frame iso_parse sample_frame, Raise (ValueError FrameForColumn)).
Proof.
  split; [ reflexivity | ]. split; [ run | ]. split.
  - apply (no_survivor_raises iso_parse planar_miles nyc hopeless_frame);
      [ reflexivity | run ].
  - apply (no_survivor_raises iso_parse planar_miles swapped sample_frame);
      [ reflexivity | run ].
Defined.

Lemma first_refused_row_raises_sample :
  has_required polar_frame = true
  /\ find (fun x => negb (accepted x)) (survivors iso_parse loose polar_frame)
     = Some polar_trip
  /\ refusal polar_trip = Some LatitudeOutOfRange
  /\ exists why,
       refusal polar_trip = Some why
       /\ sample_clean loose polar_frame
          = (converted_frame iso_parse polar_frame, Raise (ValueError why)).
Proof.
  split; [ reflexivity | ]. split; [ run | ]. split; [ run | ].
  apply (first_refused_row_raises iso_parse planar_miles loose polar_frame polar_trip);
    [ reflexivity | run ].
Defined.

Lemma decided_rows_are_partitioned_sample :
  sample_clean nyc nullable_frame
  = (left_by (sample_clean nyc nullable_frame),
     Return (cleaned_of (sample_clean nyc nullable_frame),
             dropped_of (sample_clean nyc nullable_frame)))
  /\ List.length (rows nullable_frame) = 2%nat
  /\ List.length (filter (undecided iso_parse nyc) (rows nullable_frame)) = 1%nat
  /\ (List.length (rows (cleaned_of (sample_clean nyc nullable_frame)))
      + List.length (rows (dropped_of (sample_clean nyc nullable_frame))))%nat = 1%nat
  /\ count_occ Z.eq_dec
               (map label (rows (cleaned_of (sample_clean nyc nullable_frame))))
               (label good_trip) = 1%nat
  /\ count_occ Z.eq_dec
               (map label (rows (dropped_of (sample_clean nyc nullable_frame))))
               (label good_trip) = 0%nat
  /\ count_occ Z.eq_dec
               (map label (rows (cleaned_of (sample_clean nyc nullable_frame))))
               (label blank_trip) = 0%nat
  /\ count_occ Z.eq_dec
               (map label (rows (dropped_of (sample_clean nyc nullable_frame))))
               (label blank_trip) = 0%nat.
Proof.
  assert (E : sample_clean nyc nullable_frame
              = (left_by (sample_clean nyc nullable_frame),
                 Return (cleaned_of (sample_clean nyc nullable_frame),
                         dropped_of (sample_clean nyc nullable_frame)))) by run.
  split; [ exact E | ]. split; [ reflexivity | ]. split; [ run | ].
  destruct (decided_rows_are_partitioned iso_parse planar_miles nyc nullable_frame
              _ _ _ E) as (L & _ & C).
  assert (U : List.length (filter (undecided iso_parse nyc) (rows nullable_frame)) = 1%nat)
    by run.
  split; [ rewrite U in L; cbn [rows nullable_frame List.length] in L; lia | ].
  assert (ND : NoDup (map label (rows nullable_frame))).
  { cbn. constructor; [ cbn; intros [H | []]; discriminate | ].
    constructor; [ intros [] | constructor ]. }
  destruct (C ND good_trip) as (K & _ & _); [ member | ].
  destruct (C ND blank_trip) as (_ & _ & N); [ member | ].
  destruct K as [K1 K2]; [ run | ].
  destruct N as [N1 N2]; [ run | ].
  split; [ exact K1 | ]. split; [ exact K2 | ]. split; [ exact N1 | exact N2 ].
Defined.

Lemma second_call_on_cleaned_sample :
  sample_clean nyc sample_frame = (sample_after, Return (sample_cleaned, sample_dropped))
  /\ rows sample_cleaned <> []
  /\ exists dropped',
       sample_clean nyc sample_cleaned = (sample_cleaned, Return (sample_cleaned, dropped'))
       /\ rows dropped' = [].
Proof.
  split; [ run | ].
  assert (Hne : rows sample_cleaned <> []) by (vm_compute; discriminate).
  split; [ exact Hne | ].
  exact (proj1 (second_call_on_cleaned iso_parse planar_miles nyc sample_frame
                  sample_after sample_cleaned sample_dropped sample_run) Hne).
Defined.

Lemma invalid_values_are_dropped_sample :
  sample_clean nyc sample_frame = (sample_after, Return (sample_cleaned, sample_dropped))
  /\ to_datetime iso_parse (pickup_datetime undated_trip) = NaT
  /\ In (rejected iso_parse sample_frame undated_trip) (rows sample_dropped)
  /\ nan_coordinates lost_trip = true
  /\ In (rejected iso_parse sample_frame lost_trip) (rows sample_dropped)
  /\ ~ In (delivered iso_parse planar_miles lost_trip) (rows sample_cleaned).
Proof.
  split; [ run | ]. split; [ run | ].
  assert (B : forall r, In r (rows sample_frame) -> _)
    by exact (fun r => invalid_values_are_dropped iso_parse planar_miles nyc sample_frame
                         sample_after sample_cleaned sample_dropped r sample_run).
  destruct (B undated_trip) as [T _]; [ member | left; run | ].
  destruct (B lost_trip) as [L1 L2]; [ member | right; left; run | ].
  split; [ exact T | ]. split; [ run | ]. split; [ exact L1 | exact L2 ].
Defined.

Lemma outcome_rests_on_screened_points_sample :
  sample_clean nyc sample_frame
  = clean iso_parse (screened_only planar_miles) nyc sample_frame
  /\ planar_miles (pickup_point lost_trip) (dropoff_point lost_trip)
     <> screened_only planar_miles (pickup_point lost_trip) (dropoff_point lost_trip).
Proof.
  split.
  - apply (outcome_rests_on_screened_points iso_parse planar_miles
             (screened_only planar_miles) nyc).
    intros p q Hp Hq _ _. unfold screened_only. rewrite Hp, Hq. reflexivity.
  - vm_compute. intros H.
    apply (f_equal PrimFloat.is_nan) in H. vm_compute in H. discriminate.
Defined.
